(** * A Fooocus text-to-image client: model of [example_text_to_image.py]

    The script submits one generation request, queries the job once and
    downloads the images the job reports.  Every effect of the script
    (printing, HTTP requests, directory creation, file writes, reading the
    clock) is modelled in a state-and-exception monad whose state carries
    the trace of effects performed so far together with the file system. *)

From Stdlib Require Import ZArith String Ascii List Bool Lia.
From Stdlib Require Import SpecFloat DecimalString.
From Stdlib Require Import DecimalFacts DecimalNat.
From stdpp Require Import base option list gmap strings.

Local Open Scope string_scope.
Local Open Scope list_scope.

(** ** Python values that the script handles

    Everything the script inspects is a value decoded from JSON, or a value
    it is about to encode as JSON.  A [dict] is kept as the list of its items
    in insertion order. *)

#[warnings="-register-all"]
Inductive value : Type :=
| VNone
| VBool (b : bool)
| VInt (z : Z)
| VFloat (f : spec_float)
| VStr (s : string)
| VList (l : list value)
| VDict (items : list (string * value)).

(** The float literals [2.0] and [4.0] as binary64 values. *)
Definition float_2_0 : spec_float := S754_finite false 4503599627370496 (-51).
Definition float_4_0 : spec_float := S754_finite false 4503599627370496 (-50).

Inductive exn : Type :=
| AttributeError
| KeyError
| TypeError
| FileExistsError
| RequestException (reason : string)
| JSONDecodeError.

Inductive result (A : Type) : Type :=
| Ok (a : A)
| Raise (e : exn).
Arguments Ok {A} a.
Arguments Raise {A} e.

Module Py.

(** [dict.get]-style lookup in the items of a dict. *)
Fixpoint lookup (k : string) (items : list (string * value)) : option value :=
  match items with
  | [] => None
  | (k', v) :: rest => if String.eqb k k' then Some v else lookup k rest
  end.

(** [bool(v)]: Python truthiness. *)
Definition is_zero_float (f : spec_float) : bool :=
  match f with
  | S754_zero _ => true
  | _ => false
  end.

Definition truthy (v : value) : bool :=
  match v with
  | VNone => false
  | VBool b => b
  | VInt z => negb (Z.eqb z 0)
  | VFloat f => negb (is_zero_float f)
  | VStr s => negb (String.eqb s "")
  | VList l => match l with [] => false | _ => true end
  | VDict d => match d with [] => false | _ => true end
  end.

(** [v.get(k, default)]: only dicts have a [get] attribute. *)
Definition get (v : value) (k : string) (default : value) : result value :=
  match v with
  | VDict items =>
      Ok (match lookup k items with Some x => x | None => default end)
  | _ => Raise AttributeError
  end.

(** [v[k]] with a string key. *)
Definition getitem (v : value) (k : string) : result value :=
  match v with
  | VDict items =>
      match lookup k items with Some x => Ok x | None => Raise KeyError end
  | _ => Raise TypeError
  end.

(** [v == s] for a string literal [s]. *)
Definition eq_str (v : value) (s : string) : bool :=
  match v with
  | VStr s' => String.eqb s' s
  | _ => false
  end.

Fixpoint chars (s : string) : list value :=
  match s with
  | EmptyString => []
  | String c rest => VStr (String c EmptyString) :: chars rest
  end.

(** The elements [enumerate(v)] runs through: the items of a list, the keys
    of a dict, the characters of a string; other values are not iterable. *)
Definition iter (v : value) : result (list value) :=
  match v with
  | VList l => Ok l
  | VDict items => Ok (map (fun kv => VStr (fst kv)) items)
  | VStr s => Ok (chars s)
  | _ => Raise TypeError
  end.

(** [str(n)] for a non-negative integer. *)
Definition str_nat (n : nat) : string :=
  NilZero.string_of_uint (Nat.to_uint n).

End Py.

(** ** Date and time *)

Record datetime : Type := {
  year : nat; month : nat; day : nat;
  hour : nat; minute : nat; second : nat
}.

(** A two-digit field of [strftime] ([%m], [%d], [%H], [%M], [%S]). *)
Definition two_digits (n : nat) : string :=
  if Nat.ltb n 10 then "0" ++ Py.str_nat n else Py.str_nat n.

(** [dt.strftime("%Y%m%d_%H%M%S")]; the year is printed in full. *)
Definition strftime (dt : datetime) : string :=
  Py.str_nat (year dt) ++ two_digits (month dt) ++ two_digits (day dt)
  ++ "_" ++ two_digits (hour dt) ++ two_digits (minute dt)
  ++ two_digits (second dt).

(** ** Effects

    A printed line is kept as the pieces of the f-string it was built from:
    literal text, [str(v)] of a value, or [json.dumps(v, indent=2)]. *)

Inductive piece : Type :=
| Lit (s : string)
| Str (v : value)
| Dumps (v : value).

Inductive event : Type :=
| EPrint (line : list piece)
| EPost (url : string) (body : value) (headers : list (string * string))
| EGet (url : value) (query : list (string * value))
| EMakedirs (path : string) (exist_ok : bool)
| EWrite (path : string) (data : list Byte.byte).

(** What [requests] hands back: the status code, the raw body, and the
    outcome of calling [.json()] on it. *)
Record Response : Type := {
  status_code : Z;
  content : list Byte.byte;
  json : result value
}.

(** The outside world: the HTTP server behind [requests.post] and
    [requests.get], and the clock behind [datetime.now].  Each answer may
    depend on everything the script has done before. *)
Record World : Type := {
  requests_post :
    list event -> string -> value -> list (string * string) -> result Response;
  requests_get :
    list event -> value -> list (string * value) -> result Response;
  datetime_now : list event -> datetime
}.

Record State : Type := {
  trace : list event;
  files : gmap string (list Byte.byte);
  dirs : gset string
}.

Definition log (e : event) (s : State) : State :=
  {| trace := trace s ++ [e]; files := files s; dirs := dirs s |}.

Definition initial : State := {| trace := []; files := ∅; dirs := ∅ |}.

(** Computations that may raise: the state reached is kept in both cases. *)
Definition M (A : Type) : Type := State -> result A * State.

Definition ret {A} (a : A) : M A := fun s => (Ok a, s).

Definition raise {A} (e : exn) : M A := fun s => (Raise e, s).

Definition bind {A B} (m : M A) (k : A -> M B) : M B :=
  fun s =>
    match m s with
    | (Ok a, s') => k a s'
    | (Raise e, s') => (Raise e, s')
    end.

Definition lift {A} (r : result A) : M A := fun s => (r, s).

Declare Scope py_scope.
Delimit Scope py_scope with py.
Notation "x <- m ;; k" := (bind m (fun x => k))
  (at level 100, m at next level, right associativity) : py_scope.
Notation "m ;; k" := (bind m (fun _ => k))
  (at level 100, right associativity) : py_scope.
Local Open Scope py_scope.

Definition print (line : list piece) : M unit :=
  fun s => (Ok tt, log (EPrint line) s).

Definition post (w : World) (url : string) (body : value)
    (headers : list (string * string)) : M Response :=
  fun s => (requests_post w (trace s) url body headers,
            log (EPost url body headers) s).

Definition get (w : World) (url : value) (query : list (string * value))
    : M Response :=
  fun s => (requests_get w (trace s) url query, log (EGet url query) s).

Definition now (w : World) : M datetime :=
  fun s => (Ok (datetime_now w (trace s)), s).

(** Refusals by the operating system (permissions, a full disk) are outside
    the model; what Python itself decides from the files and directories
    that exist is part of it.

    [os.makedirs(path, exist_ok=...)]: a regular file of that name is in the
    way whatever [exist_ok] says; an existing directory is accepted only with
    [exist_ok]. *)
Definition makedirs (path : string) (exist_ok : bool) : M unit :=
  fun s =>
    let s' := log (EMakedirs path exist_ok) s in
    match files s !! path with
    | Some _ => (Raise FileExistsError, s')
    | None =>
        if decide (path ∈ dirs s) then
          if exist_ok then (Ok tt, s') else (Raise FileExistsError, s')
        else
          (Ok tt, {| trace := trace s'; files := files s';
                     dirs := {[ path ]} ∪ dirs s' |})
    end.

(** [with open(path, "wb") as f: f.write(data)] *)
Definition write_file (path : string) (data : list Byte.byte) : M unit :=
  fun s =>
    let s' := log (EWrite path data) s in
    (Ok tt, {| trace := trace s'; files := <[ path := data ]> (files s');
               dirs := dirs s' |}).

(** ** The script *)

Definition API_URL : string := "http://127.0.0.1:8888".

(** The request dict built by [text_to_image]. *)
Definition params (prompt negative_prompt : string) (style_selections : value)
    (async_process : bool) : value :=
  VDict [ ("prompt", VStr prompt);
          ("negative_prompt", VStr negative_prompt);
          ("style_selections", style_selections);
          ("performance_selection", VStr "Quality");
          ("aspect_ratios_selection", VStr "1152*896");
          ("image_number", VInt 1);
          ("image_seed", VInt (-1));
          ("sharpness", VFloat float_2_0);
          ("guidance_scale", VFloat float_4_0);
          ("async_process", VBool async_process);
          ("save_extension", VStr "png") ].

(** [text_to_image(prompt, negative_prompt="", style_selections=None,
    async_process=True)].  An argument the caller leaves out is [None]. *)
Definition text_to_image (w : World) (prompt : string)
    (negative_prompt : option string) (style_selections : option value)
    (async_process : option bool) : M value :=
  let negative_prompt := default "" negative_prompt in
  let async_process := default true async_process in
  let style_selections :=
    match style_selections with
    | None | Some VNone => VList [VStr "Fooocus V2"]
    | Some v => v
    end in
  response <- post w (API_URL ++ "/v1/generation/text-to-image")%string
                (params prompt negative_prompt style_selections async_process)
                [("Content-Type", "application/json")] ;;
  lift (json response).

Definition check_job_status (w : World) (job_id : value) : M value :=
  response <- get w (VStr (API_URL ++ "/v1/generation/query-job")%string)
                [("job_id", job_id)] ;;
  lift (json response).

(** The body of the loop over [job_result] in [main]. *)
Definition download (w : World) (idx : nat) (result : value) : M unit :=
  url <- lift (Py.get result "url" VNone) ;;
  if Py.truthy url then
    url <- lift (Py.getitem result "url") ;;
    print [Lit "Image URL: "; Str url] ;;
    seed <- lift (Py.get result "seed" (VStr "N/A")) ;;
    print [Lit "Seed: "; Str seed] ;;
    url <- lift (Py.getitem result "url") ;;
    image_response <- get w url [] ;;
    if Z.eqb (status_code image_response) 200 then
      dt <- now w ;;
      let timestamp := strftime dt in
      let filename : string :=
        ("outputs/image_" ++ timestamp ++ "_" ++ Py.str_nat idx ++ ".png")%string in
      write_file filename (content image_response) ;;
      print [Lit ("Image saved to " ++ filename)%string]
    else ret tt
  else ret tt.

(** [for idx, result in enumerate(results): ...], counting from [idx]. *)
Fixpoint download_all (w : World) (idx : nat) (results : list value)
    : M unit :=
  match results with
  | [] => ret tt
  | result :: rest => download w idx result ;; download_all w (S idx) rest
  end.

Definition main (w : World) : M unit :=
  let prompt : string := "A beautiful landscape with mountains, a lake, and a sunset" in
  let negative_prompt : string := "ugly, blurry, low quality" in
  print [Lit ("Sending text-to-image request with prompt: '"
              ++ prompt ++ "'")%string] ;;
  response <- text_to_image w prompt (Some negative_prompt) None None ;;
  print [Dumps response] ;;
  job_id <- lift (Py.get response "job_id" VNone) ;;
  if Py.truthy job_id then
    job_id <- lift (Py.getitem response "job_id") ;;
    print [Lit (String "010" "Job ID: "); Str job_id] ;;
    print [Lit "Checking job status..."] ;;
    makedirs "outputs" true ;;
    job_status <- check_job_status w job_id ;;
    print [Dumps job_status] ;;
    stage <- lift (Py.get job_status "job_stage" VNone) ;;
    (if Py.eq_str stage "PENDING" || Py.eq_str stage "RUNNING" then
       print [Lit "Job is still processing. Check status later with:"] ;;
       print [Lit ("curl " ++ API_URL
                   ++ "/v1/generation/query-job?job_id=")%string;
              Str job_id]
     else ret tt) ;;
    job_result <- lift (Py.get job_status "job_result" VNone) ;;
    if Py.truthy job_result then
      job_result <- lift (Py.getitem job_status "job_result") ;;
      results <- lift (Py.iter job_result) ;;
      download_all w 0 results
    else ret tt
  else ret tt.

(** ** Reading traces and request bodies *)

(** The value stored under key [k] when [body] is a dict. *)
Definition field (body : value) (k : string) : option value :=
  match body with
  | VDict items => Py.lookup k items
  | _ => None
  end.

(** The keys of a dict, in order. *)
Definition keys (body : value) : list string :=
  match body with
  | VDict items => map fst items
  | _ => []
  end.

(** [body] is a dict whose keys are exactly [names], each occurring once. *)
Definition has_exactly_fields (names : list string) (body : value) : Prop :=
  NoDup (keys body) ∧ ∀ k, k ∈ keys body ↔ k ∈ names.

(** The fields of a generation request as the data model names them, and as
    the script sends them. *)
Definition model_fields : list string :=
  [ "performance_selection"; "aspect_ratio"; "image_number"; "image_seed";
    "sharpness"; "guidance_scale"; "save_extension";
    "prompt"; "negative_prompt"; "style_selections"; "async_process" ].

Definition sent_fields : list string :=
  [ "performance_selection"; "aspect_ratios_selection"; "image_number";
    "image_seed"; "sharpness"; "guidance_scale"; "save_extension";
    "prompt"; "negative_prompt"; "style_selections"; "async_process" ].

(** The style list [text_to_image] sends: the default when the argument is
    left out or is [None]. *)
Definition styles_or_default (style_selections : option value) : value :=
  match style_selections with
  | None | Some VNone => VList [VStr "Fooocus V2"]
  | Some styles => styles
  end.

(** The body [text_to_image] sends for its arguments, an argument left out
    being [None]. *)
Definition request_body (prompt : string) (negative_prompt : option string)
    (style_selections : option value) (async_process : option bool)
    : value :=
  params prompt (default "" negative_prompt)
    (styles_or_default style_selections) (default true async_process).

Definition is_post (e : event) : bool :=
  match e with EPost _ _ _ => true | _ => false end.

Definition is_write (e : event) : bool :=
  match e with EWrite _ _ => true | _ => false end.

Definition is_makedirs (e : event) : bool :=
  match e with EMakedirs _ _ => true | _ => false end.

(** A status query: a GET on the query-job endpoint carrying a [job_id]. *)
Definition is_poll (e : event) : bool :=
  match e with
  | EGet (VStr url) [(k, _)] =>
      String.eqb url "http://127.0.0.1:8888/v1/generation/query-job"
      && String.eqb k "job_id"
  | _ => false
  end.

Fixpoint count (f : event -> bool) (t : list event) : nat :=
  match t with
  | [] => 0
  | e :: t' => (if f e then 1 else 0) + count f t'
  end.

(** The bodies of the POST requests of a trace, in order. *)
Fixpoint posted (t : list event) : list value :=
  match t with
  | [] => []
  | EPost _ body _ :: t' => body :: posted t'
  | _ :: t' => posted t'
  end.

(** The events a computation adds when started in [s]. *)
Definition emitted {A} (m : M A) (s : State) : list event :=
  drop (length (trace s)) (trace (m s).2).

(** ** The download step, in events *)

(** The two lines the step prints about a result before fetching it. *)
Definition announced (items : list (string * value)) (url : value)
    : list event :=
  [ EPrint [Lit "Image URL: "; Str url];
    EPrint [Lit "Seed: ";
            Str (default (VStr "N/A") (Py.lookup "seed" items))] ].

(** The step up to and including the request for the image at [url]. *)
Definition shown (items : list (string * value)) (url : value) : list event :=
  announced items url ++ [EGet url []].

(** The state after events [evs], the last of which may have changed the
    files. *)
Definition after (s : State) (evs : list event)
    (fs : gmap string (list Byte.byte)) : State :=
  {| trace := trace s ++ evs; files := fs; dirs := dirs s |}.

(** ** Failures and answers *)

(** The request fails when the transport raises, or when the answer does not
    decode as JSON. *)
Definition fails_with (e : exn) (answer : result Response) : Prop :=
  answer = Raise e ∨ ∃ r, answer = Ok r ∧ json r = Raise e.

(** ** Computations that only print, fetch images and save files

    An event is [local] when it is a printed line, a file write, or a GET
    without query parameters.  A computation is [contained] when every event
    it adds is local and it leaves the set of directories alone. *)

Definition is_local (e : event) : bool :=
  match e with
  | EPrint _ | EWrite _ _ | EGet _ [] => true
  | _ => false
  end.

Definition contained {A} (m : M A) : Prop :=
  ∀ s, ∃ ext,
    trace (m s).2 = trace s ++ ext
    ∧ dirs (m s).2 = dirs s
    ∧ forallb is_local ext = true.

(** ** What the loop over [job_result] may leave in the trace *)

(** The events of saving an image under the given index and timestamp. *)
Definition saved_as (idx : nat) (timestamp : string) (data : list Byte.byte)
    : list event :=
  let filename :=
    ("outputs/image_" ++ timestamp ++ "_" ++ Py.str_nat idx ++ ".png")%string in
  [ EWrite filename data; EPrint [Lit ("Image saved to " ++ filename)%string] ].

(** [handled idx result evs out]: handling [result] at position [idx] adds
    the events [evs] and ends with [out]. *)
Inductive handled (idx : nat) : value -> list event -> result unit -> Prop :=
| handled_no_url items :
    Py.truthy (default VNone (Py.lookup "url" items)) = false ->
    handled idx (VDict items) [] (Ok tt)
| handled_not_object v :
    (∀ items, v ≠ VDict items) ->
    handled idx v [] (Raise AttributeError)
| handled_unreachable items url e :
    Py.lookup "url" items = Some url -> Py.truthy url = true ->
    handled idx (VDict items) (shown items url) (Raise e)
| handled_not_saved items url :
    Py.lookup "url" items = Some url -> Py.truthy url = true ->
    handled idx (VDict items) (shown items url) (Ok tt)
| handled_saved items url timestamp data :
    Py.lookup "url" items = Some url -> Py.truthy url = true ->
    handled idx (VDict items) (shown items url ++ saved_as idx timestamp data)
      (Ok tt).

(** [visited idx results evs out]: the results are handled one after the
    other, in order, counting from [idx], until the list ends or a step
    raises. *)
Inductive visited : nat -> list value -> list event -> result unit -> Prop :=
| visited_nil idx : visited idx [] [] (Ok tt)
| visited_raise idx result rest evs e :
    handled idx result evs (Raise e) ->
    visited idx (result :: rest) evs (Raise e)
| visited_cons idx result rest evs evs' out :
    handled idx result evs (Ok tt) ->
    visited (S idx) rest evs' out ->
    visited idx (result :: rest) (evs ++ evs') out.



(** ** The pieces of the main flow *)

Definition announcement : event :=
  EPrint [Lit "Sending text-to-image request with prompt: 'A beautiful landscape with mountains, a lake, and a sunset'"].

(** The request body [main] submits. *)
Definition submitted_body : value :=
  params "A beautiful landscape with mountains, a lake, and a sunset"
    "ugly, blurry, low quality" (VList [VStr "Fooocus V2"]) true.

Definition submission : event :=
  EPost "http://127.0.0.1:8888/v1/generation/text-to-image" submitted_body
    [("Content-Type", "application/json")].

Definition job_lines (job_id : value) : list event :=
  [ EPrint [Lit (String "010" "Job ID: "); Str job_id];
    EPrint [Lit "Checking job status..."] ].

Definition status_query (job_id : value) : event :=
  EGet (VStr "http://127.0.0.1:8888/v1/generation/query-job")
    [("job_id", job_id)].

Definition retry_hint (job_id : value) : list event :=
  [ EPrint [Lit "Job is still processing. Check status later with:"];
    EPrint [Lit "curl http://127.0.0.1:8888/v1/generation/query-job?job_id=";
            Str job_id] ].

Definition still_processing (stage : value) : bool :=
  Py.eq_str stage "PENDING" || Py.eq_str stage "RUNNING".

(** A request is answered with [v] when the transport delivers an answer
    whose body decodes to [v]. *)
Definition answers (answer : result Response) (v : value) : Prop :=
  ∃ r, answer = Ok r ∧ json r = Ok v.

(** What [main], started in [s], hears back from the submit request and from
    the status query. *)
Definition submit_answer (w : World) (s : State) : result Response :=
  requests_post w (trace s ++ [announcement])
    "http://127.0.0.1:8888/v1/generation/text-to-image" submitted_body
    [("Content-Type", "application/json")].

Definition status_answer (w : World) (s : State) (response job_id : value)
    : result Response :=
  requests_get w
    (trace s ++ [announcement; submission; EPrint [Dumps response]]
     ++ job_lines job_id ++ [EMakedirs "outputs" true])
    (VStr "http://127.0.0.1:8888/v1/generation/query-job")
    [("job_id", job_id)].

(** The part of [main] that follows the status query. *)
Definition after_status (w : World) (job_id job_status : value) : M unit :=
  print [Dumps job_status] ;;
  stage <- lift (Py.get job_status "job_stage" VNone) ;;
  (if Py.eq_str stage "PENDING" || Py.eq_str stage "RUNNING" then
     print [Lit "Job is still processing. Check status later with:"] ;;
     print [Lit ("curl " ++ API_URL
                 ++ "/v1/generation/query-job?job_id=")%string;
            Str job_id]
   else ret tt) ;;
  job_result <- lift (Py.get job_status "job_result" VNone) ;;
  if Py.truthy job_result then
    job_result <- lift (Py.getitem job_status "job_result") ;;
    results <- lift (Py.iter job_result) ;;
    download_all w 0 results
  else ret tt.

(** The part of [main] that follows the submit request. *)
Definition after_submit (w : World) (response : value) : M unit :=
  print [Dumps response] ;;
  job_id <- lift (Py.get response "job_id" VNone) ;;
  if Py.truthy job_id then
    job_id <- lift (Py.getitem response "job_id") ;;
    print [Lit (String "010" "Job ID: "); Str job_id] ;;
    print [Lit "Checking job status..."] ;;
    makedirs "outputs" true ;;
    job_status <- check_job_status w job_id ;;
    after_status w job_id job_status
  else ret tt.

(** The state in which [main] issues its status query. *)
Definition before_query (s : State) (response job_id : value) : State :=
  {| trace := trace s ++ [EPrint [Dumps response]] ++ job_lines job_id
              ++ [EMakedirs "outputs" true];
     files := files s;
     dirs := {[ "outputs" ]} ∪ dirs s |}.

(** ** Reading files, image requests and failures off a run *)

(** The file writes of a trace, in order: path and content. *)
Fixpoint written (t : list event) : list (string * list Byte.byte) :=
  match t with
  | [] => []
  | EWrite path data :: t' => (path, data) :: written t'
  | _ :: t' => written t'
  end.

(** The URLs of the GETs without query parameters of a trace, in order. *)
Fixpoint fetched (t : list event) : list value :=
  match t with
  | [] => []
  | EGet url [] :: t' => url :: fetched t'
  | _ :: t' => fetched t'
  end.

(** The URL the loop fetches for a result: its [url], when the result is an
    object and the [url] is truthy. *)
Definition image_url (result : value) : option value :=
  match result with
  | VDict items =>
      match Py.lookup "url" items with
      | Some url => if Py.truthy url then Some url else None
      | None => None
      end
  | _ => None
  end.

Definition image_urls (results : list value) : list value :=
  omap image_url results.

(** The name of the file saved for the result at [idx] at time
    [timestamp]. *)
Definition image_path (timestamp : string) (idx : nat) : string :=
  ("outputs/image_" ++ timestamp ++ "_" ++ Py.str_nat idx ++ ".png")%string.

(** Whether the character [c] occurs in [s]. *)
Fixpoint occurs (c : ascii) (s : string) : bool :=
  match s with
  | EmptyString => false
  | String a s' => Ascii.eqb a c || occurs c s'
  end.

(** The files after the writes [ws], carried out in order. *)
Definition apply_writes (ws : list (string * list Byte.byte))
    (fs : gmap string (list Byte.byte)) : gmap string (list Byte.byte) :=
  foldl (fun fs pd => <[ pd.1 := pd.2 ]> fs) fs ws.

(** A computation is [tracked] when the files it leaves are the files it
    found, updated by the writes it logged. *)
Definition tracked {A} (m : M A) : Prop :=
  ∀ s, ∃ ext,
    trace (m s).2 = trace s ++ ext
    ∧ files (m s).2 = apply_writes (written ext) (files s).

(** Events that neither write a file nor fetch an image. *)
Definition is_quiet (e : event) : bool :=
  match e with
  | EWrite _ _ | EGet _ [] => false
  | _ => true
  end.


(** ** Sample worlds, used to run the script on concrete inputs *)

Module Sample.

Definition png : list Byte.byte := [Byte.x89; Byte.x50; Byte.x4e; Byte.x47].

Definition noon : datetime :=
  {| year := 2025; month := 3; day := 9; hour := 12; minute := 0;
     second := 7 |}.

Definition reply (code : Z) (body : list Byte.byte) (decoded : result value)
    : Response :=
  {| status_code := code; content := body; json := decoded |}.

(** A server whose submit answer is [submitted], whose status answer is
    [status], and which serves every image URL with [image]. *)
Definition server (submitted status : value) (image : Response) : World :=
  {| requests_post := fun _ _ _ _ => Ok (reply 200 [] (Ok submitted));
     requests_get := fun _ _ query =>
       match query with
       | [] => Ok image
       | _ => Ok (reply 200 [] (Ok status))
       end;
     datetime_now := fun _ => noon |}.

Definition one_result : value :=
  VDict [("url", VStr "http://127.0.0.1:8888/files/a.png"); ("seed", VInt 7)].

Definition finished : value :=
  VDict [("job_id", VStr "j1"); ("job_stage", VStr "SUCCESS");
         ("job_result", VList [one_result])].

Definition accepted (job_id : value) : value :=
  VDict [("job_id", job_id); ("job_stage", VStr "PENDING")].

(** A server that cannot be reached. *)
Definition unreachable : World :=
  {| requests_post := fun _ _ _ _ => Raise (RequestException "refused");
     requests_get := fun _ _ _ => Raise (RequestException "refused");
     datetime_now := fun _ => noon |}.

(** A server that answers every request with a page that is not JSON. *)
Definition garbled : World :=
  {| requests_post := fun _ _ _ _ => Ok (reply 502 [] (Raise JSONDecodeError));
     requests_get := fun _ _ _ => Ok (reply 502 [] (Raise JSONDecodeError));
     datetime_now := fun _ => noon |}.

End Sample.

Module Faulty.

(** A server that accepts the job and then cannot be reached any more. *)
Definition vanishing : World :=
  {| requests_post := fun _ _ _ _ =>
       Ok (Sample.reply 200 [] (Ok (Sample.accepted (VStr "j1"))));
     requests_get := fun _ _ _ => Raise (RequestException "refused");
     datetime_now := fun _ => Sample.noon |}.

(** A server that reports two images and serves only the status query. *)
Definition two_results : value :=
  VDict [("job_id", VStr "j1"); ("job_stage", VStr "SUCCESS");
         ("job_result",
          VList [Sample.one_result;
                 VDict [("url", VStr "http://127.0.0.1:8888/files/b.png")]])].

Definition images_gone : World :=
  {| requests_post := fun _ _ _ _ => Ok (Sample.reply 200 [] (Ok two_results));
     requests_get := fun _ _ query =>
       match query with
       | [] => Raise (RequestException "reset")
       | _ => Ok (Sample.reply 200 [] (Ok two_results))
       end;
     datetime_now := fun _ => Sample.noon |}.

End Faulty.

(** ** The script on the sample worlds *)

(** A finished job with one image: the image is fetched and saved. *)
Example main_finished_job :
  main (Sample.server Sample.finished Sample.finished
          (Sample.reply 200 Sample.png (Raise JSONDecodeError))) initial
  = (Ok tt,
     {| trace :=
          [ announcement; submission; EPrint [Dumps Sample.finished];
            EPrint [Lit (String "010" "Job ID: "); Str (VStr "j1")];
            EPrint [Lit "Checking job status..."];
            EMakedirs "outputs" true;
            EGet (VStr "http://127.0.0.1:8888/v1/generation/query-job")
              [("job_id", VStr "j1")];
            EPrint [Dumps Sample.finished];
            EPrint [Lit "Image URL: ";
                    Str (VStr "http://127.0.0.1:8888/files/a.png")];
            EPrint [Lit "Seed: "; Str (VInt 7)];
            EGet (VStr "http://127.0.0.1:8888/files/a.png") [];
            EWrite "outputs/image_20250309_120007_0.png" Sample.png;
            EPrint [Lit "Image saved to outputs/image_20250309_120007_0.png"] ];
        files := {[ "outputs/image_20250309_120007_0.png" := Sample.png ]};
        dirs := {[ "outputs" ]} |}).
Proof. vm_compute. reflexivity. Qed.

(** A job that is still pending: the hint is printed, nothing is fetched. *)
Example main_pending_job :
  main (Sample.server (Sample.accepted (VStr "j1"))
          (Sample.accepted (VStr "j1"))
          (Sample.reply 200 Sample.png (Raise JSONDecodeError))) initial
  = (Ok tt,
     {| trace :=
          [ announcement; submission;
            EPrint [Dumps (Sample.accepted (VStr "j1"))];
            EPrint [Lit (String "010" "Job ID: "); Str (VStr "j1")];
            EPrint [Lit "Checking job status..."];
            EMakedirs "outputs" true;
            EGet (VStr "http://127.0.0.1:8888/v1/generation/query-job")
              [("job_id", VStr "j1")];
            EPrint [Dumps (Sample.accepted (VStr "j1"))];
            EPrint [Lit "Job is still processing. Check status later with:"];
            EPrint [Lit "curl http://127.0.0.1:8888/v1/generation/query-job?job_id=";
                    Str (VStr "j1")] ];
        files := ∅;
        dirs := {[ "outputs" ]} |}).
Proof. vm_compute. reflexivity. Qed.

(** No server: the run ends with the exception of the submit request. *)
Example main_unreachable :
  main Sample.unreachable initial
  = (Raise (RequestException "refused"),
     {| trace := [announcement; submission]; files := ∅; dirs := ∅ |}).
Proof. reflexivity. Qed.

(** A regular file named [outputs]: [makedirs] ends the run before the
    status query. *)
Example main_outputs_is_a_file :
  main (Sample.server Sample.finished Sample.finished
          (Sample.reply 200 Sample.png (Raise JSONDecodeError)))
    {| trace := []; files := {[ "outputs" := [] ]}; dirs := ∅ |}
  = (Raise FileExistsError,
     {| trace :=
          [ announcement; submission; EPrint [Dumps Sample.finished];
            EPrint [Lit (String "010" "Job ID: "); Str (VStr "j1")];
            EPrint [Lit "Checking job status..."];
            EMakedirs "outputs" true ];
        files := {[ "outputs" := [] ]};
        dirs := ∅ |}).
Proof. vm_compute. reflexivity. Qed.

(** A synchronous answer is a list, which has no [get]. *)
Example main_list_response :
  (main (Sample.server (VList [Sample.one_result]) Sample.finished
           (Sample.reply 200 Sample.png (Raise JSONDecodeError))) initial).1
  = Raise AttributeError.
Proof. reflexivity. Qed.

Example strftime_noon : strftime Sample.noon = "20250309_120007".
Proof. reflexivity. Qed.

Example truthy_values :
  map Py.truthy
    [VNone; VBool false; VInt 0; VFloat (S754_zero true); VStr ""; VList [];
     VDict []; VInt 3; VStr "0"; VFloat float_2_0; VList [VNone]]
  = [false; false; false; false; false; false; false; true; true; true; true].
Proof. reflexivity. Qed.

(** ** Basic facts about traces *)

Lemma count_app f t1 t2 : count f (t1 ++ t2) = count f t1 + count f t2.
Proof. induction t1 as [|e t1 IH]; simpl; [reflexivity | rewrite IH; lia]. Qed.

Lemma posted_app t1 t2 : posted (t1 ++ t2) = posted t1 ++ posted t2.
Proof.
  induction t1 as [|e t1 IH]; simpl; [reflexivity |].
  destruct e; simpl; rewrite ?IH; reflexivity.
Qed.

Lemma trace_log e s : trace (log e s) = trace s ++ [e].
Proof. reflexivity. Qed.

Lemma emitted_extends {A} (m : M A) s ext :
  trace (m s).2 = trace s ++ ext -> emitted m s = ext.
Proof. unfold emitted. intros ->. apply drop_app_length. Qed.

(** ** [text_to_image] *)

(** Every call of [text_to_image], whatever arguments are given or left
    out: one POST of the request body, and the decoded answer or the
    exception that came up. *)
Lemma text_to_image_run w prompt negative_prompt style_selections
    async_process s :
  text_to_image w prompt negative_prompt style_selections async_process s =
  (match requests_post w (trace s)
           "http://127.0.0.1:8888/v1/generation/text-to-image"
           (request_body prompt negative_prompt style_selections
              async_process)
           [("Content-Type", "application/json")] with
   | Ok r => json r
   | Raise e => Raise e
   end,
   log (EPost "http://127.0.0.1:8888/v1/generation/text-to-image"
          (request_body prompt negative_prompt style_selections
             async_process)
          [("Content-Type", "application/json")]) s).
Proof.
  unfold text_to_image, request_body, styles_or_default, bind, post, lift.
  simpl.
  destruct (requests_post _ _ _ _ _); reflexivity.
Qed.

Lemma params_fields prompt negative_prompt style_selections async_process :
  has_exactly_fields sent_fields
    (params prompt negative_prompt style_selections async_process).
Proof.
  split.
  - simpl. apply (bool_decide_unpack _). vm_compute. reflexivity.
  - intros k. simpl. unfold sent_fields.
    rewrite !elem_of_cons, !elem_of_nil. tauto.
Qed.

(** C1 (as stated) fails: the body sent for the prompt ["test"] and an empty
    negative prompt has no field called [aspect_ratio]; the resolution travels
    under the key [aspect_ratios_selection], which the claim does not list. *)
Lemma text_to_image_body_not_model_fields :
  ∃ body,
    posted (trace (text_to_image (Sample.server Sample.finished Sample.finished
                                    (Sample.reply 200 Sample.png (Raise JSONDecodeError)))
                     "test" (Some "") None None initial).2) = [body]
    ∧ field body "aspect_ratio" = None
    ∧ field body "aspect_ratios_selection" = Some (VStr "1152*896")
    ∧ ¬ has_exactly_fields model_fields body.
Proof.
  eexists. split; [reflexivity |]. split; [reflexivity |].
  split; [reflexivity |].
  intros [_ H]. specialize (H "aspect_ratio"). simpl in H.
  destruct H as [_ H].
  assert (Hin : "aspect_ratio" ∈ model_fields).
  { unfold model_fields. rewrite !elem_of_cons. tauto. }
  specialize (H Hin). revert H.
  apply (bool_decide_unpack _). vm_compute. reflexivity.
Qed.

(** C1 (amended): for every prompt and every negative prompt, style list and
    [async_process] flag, given or left out, [text_to_image] issues one POST
    to the text-to-image endpoint, whatever the server then does; its JSON
    body holds exactly the eleven fields [prompt], [negative_prompt],
    [style_selections], [async_process] (as provided, or the defaults [""],
    [["Fooocus V2"]] and [true]) and [performance_selection = "Quality"],
    [aspect_ratios_selection = "1152*896"], [image_number = 1],
    [image_seed = -1], [sharpness = 2.0], [guidance_scale = 4.0],
    [save_extension = "png"], and no other key; when the server answers with
    a body that decodes to [j], the call returns [j]. *)
Theorem text_to_image_sends_request_fields
    (w : World) (prompt : string) (negative_prompt : option string)
    (style_selections : option value) (async_process : option bool)
    (s : State) :
  let url := "http://127.0.0.1:8888/v1/generation/text-to-image" in
  let headers := [("Content-Type", "application/json")] in
  let body :=
    request_body prompt negative_prompt style_selections async_process in
  let call :=
    text_to_image w prompt negative_prompt style_selections async_process in
  emitted call s = [EPost url body headers]
  ∧ (∀ r j,
       requests_post w (trace s) url body headers = Ok r ->
       json r = Ok j ->
       call s = (Ok j, log (EPost url body headers) s))
  ∧ has_exactly_fields sent_fields body
  ∧ field body "prompt" = Some (VStr prompt)
  ∧ field body "negative_prompt"
    = Some (VStr match negative_prompt with
                 | Some given => given
                 | None => ""
                 end)
  ∧ field body "style_selections"
    = Some match style_selections with
           | None | Some VNone => VList [VStr "Fooocus V2"]
           | Some given => given
           end
  ∧ field body "async_process"
    = Some (VBool match async_process with
                  | Some given => given
                  | None => true
                  end)
  ∧ field body "performance_selection" = Some (VStr "Quality")
  ∧ field body "aspect_ratios_selection" = Some (VStr "1152*896")
  ∧ field body "image_number" = Some (VInt 1)
  ∧ field body "image_seed" = Some (VInt (-1))
  ∧ field body "sharpness" = Some (VFloat float_2_0)
  ∧ field body "guidance_scale" = Some (VFloat float_4_0)
  ∧ field body "save_extension" = Some (VStr "png").
Proof.
  intros url headers body call.
  pose proof (text_to_image_run w prompt negative_prompt style_selections
                async_process s) as Hrun.
  fold url headers body call in Hrun.
  split; [| split].
  - apply emitted_extends. rewrite Hrun. reflexivity.
  - intros r j Hpost Hjson. rewrite Hrun, Hpost, Hjson. reflexivity.
  - split; [apply params_fields |].
    destruct negative_prompt, style_selections as [[] |], async_process;
      repeat split; reflexivity.
Qed.

Lemma text_to_image_sends_request_fields_witness :
  text_to_image
    (Sample.server Sample.finished Sample.finished
       (Sample.reply 200 Sample.png (Raise JSONDecodeError)))
    "test" (Some "") None None initial
  = (Ok Sample.finished,
     log (EPost "http://127.0.0.1:8888/v1/generation/text-to-image"
            (request_body "test" (Some "") None None)
            [("Content-Type", "application/json")]) initial).
Proof.
  refine (proj1 (proj2 (text_to_image_sends_request_fields
                          (Sample.server Sample.finished Sample.finished
                             (Sample.reply 200 Sample.png
                                (Raise JSONDecodeError)))
                          "test" (Some "") None None initial))
            (Sample.reply 200 [] (Ok Sample.finished)) Sample.finished
            _ _); reflexivity.
Defined.

(** Whatever the server does, [text_to_image] leaves exactly one POST in the
    trace and touches nothing else. *)
Lemma text_to_image_state w prompt negative_prompt style_selections
    async_process s :
  ∃ body,
    (text_to_image w prompt negative_prompt style_selections async_process s).2
    = log (EPost "http://127.0.0.1:8888/v1/generation/text-to-image" body
             [("Content-Type", "application/json")]) s
    ∧ field body "async_process" = Some (VBool (default true async_process))
    ∧ (style_selections = None ->
       field body "style_selections" = Some (VList [VStr "Fooocus V2"])).
Proof.
  unfold text_to_image, bind, post, lift. simpl.
  eexists. split.
  - destruct (requests_post _ _ _ _ _) as [r | e]; reflexivity.
  - split; [reflexivity |]. intros ->. reflexivity.
Qed.

(** C6: when [style_selections] is not passed, the request that
    [text_to_image] sends carries the default style selection, the single
    style ["Fooocus V2"], under [style_selections]. *)
Theorem text_to_image_default_style_selections
    (w : World) (prompt : string) (negative_prompt : option string)
    (async_process : option bool) (s : State) :
  ∃ body,
    emitted (text_to_image w prompt negative_prompt None async_process) s
    = [EPost "http://127.0.0.1:8888/v1/generation/text-to-image" body
         [("Content-Type", "application/json")]]
    ∧ field body "style_selections" = Some (VList [VStr "Fooocus V2"]).
Proof.
  destruct (text_to_image_state w prompt negative_prompt None async_process s)
    as (body & Hst & _ & Hstyle).
  exists body. split; [| auto].
  apply emitted_extends. rewrite Hst. apply trace_log.
Qed.

(** ** [check_job_status] *)

Lemma check_job_status_unfold w job_id s :
  check_job_status w job_id s =
  bind (get w (VStr "http://127.0.0.1:8888/v1/generation/query-job")
          [("job_id", job_id)])
       (fun response => lift (json response)) s.
Proof. reflexivity. Qed.

(** C4: [check_job_status] issues exactly one GET, to the query-job endpoint
    with the given [job_id] as its only query parameter, and returns the
    decoded JSON of the answer as it is. *)
Theorem check_job_status_single_get
    (w : World) (job_id : value) (s : State) (r : Response) (j : value) :
  let request :=
    EGet (VStr "http://127.0.0.1:8888/v1/generation/query-job")
      [("job_id", job_id)] in
  requests_get w (trace s)
    (VStr "http://127.0.0.1:8888/v1/generation/query-job")
    [("job_id", job_id)] = Ok r ->
  json r = Ok j ->
  check_job_status w job_id s = (Ok j, log request s)
  ∧ emitted (check_job_status w job_id) s = [request].
Proof.
  intros request Hget Hjson.
  assert (Hrun : check_job_status w job_id s = (Ok j, log request s)).
  { rewrite check_job_status_unfold. unfold bind, get, lift.
    rewrite Hget, Hjson. reflexivity. }
  split; [exact Hrun |].
  apply emitted_extends. rewrite Hrun. reflexivity.
Qed.

Lemma check_job_status_single_get_witness :
  check_job_status
    (Sample.server Sample.finished Sample.finished
       (Sample.reply 200 Sample.png (Raise JSONDecodeError)))
    (VStr "j1") initial
  = (Ok Sample.finished,
     log (EGet (VStr "http://127.0.0.1:8888/v1/generation/query-job")
            [("job_id", VStr "j1")]) initial).
Proof.
  refine (proj1 (check_job_status_single_get
                   (Sample.server Sample.finished Sample.finished
                      (Sample.reply 200 Sample.png (Raise JSONDecodeError)))
                   (VStr "j1") initial
                   (Sample.reply 200 [] (Ok Sample.finished)) Sample.finished
                   _ _)); reflexivity.
Defined.

(** ** Failures of the transport and of the decoder *)

(** C7: when the transport fails or the answer is not JSON, [text_to_image],
    whatever arguments are given or left out, and [check_job_status] end
    with that very exception; the single request is all they did: no second
    attempt, and nothing printed. *)
Theorem request_failures_propagate (w : World) (s : State) (e : exn) :
  (∀ prompt negative_prompt style_selections async_process,
     let url := "http://127.0.0.1:8888/v1/generation/text-to-image" in
     let headers := [("Content-Type", "application/json")] in
     let body :=
       request_body prompt negative_prompt style_selections async_process in
     fails_with e (requests_post w (trace s) url body headers) ->
     text_to_image w prompt negative_prompt style_selections async_process s
     = (Raise e, log (EPost url body headers) s))
  ∧ (∀ job_id,
       let url := VStr "http://127.0.0.1:8888/v1/generation/query-job" in
       fails_with e (requests_get w (trace s) url [("job_id", job_id)]) ->
       check_job_status w job_id s
       = (Raise e, log (EGet url [("job_id", job_id)]) s)).
Proof.
  split.
  - intros prompt negative_prompt style_selections async_process
      url headers body Hfail.
    rewrite text_to_image_run. fold url headers body.
    destruct Hfail as [-> | (r & -> & ->)]; reflexivity.
  - intros job_id url Hfail.
    rewrite check_job_status_unfold. unfold bind, get, lift. fold url.
    destruct Hfail as [-> | (r & -> & Hjson)]; [reflexivity |].
    rewrite Hjson. reflexivity.
Qed.

Lemma request_failures_propagate_witness :
  text_to_image Sample.unreachable "test" None None None initial
  = (Raise (RequestException "refused"),
     log (EPost "http://127.0.0.1:8888/v1/generation/text-to-image"
            (request_body "test" None None None)
            [("Content-Type", "application/json")]) initial)
  ∧ check_job_status Sample.garbled (VStr "j1") initial
    = (Raise JSONDecodeError,
       log (EGet (VStr "http://127.0.0.1:8888/v1/generation/query-job")
              [("job_id", VStr "j1")]) initial).
Proof.
  split.
  - refine (proj1 (request_failures_propagate Sample.unreachable initial
                     (RequestException "refused"))
              "test" None None None _).
    left. reflexivity.
  - refine (proj2 (request_failures_propagate Sample.garbled initial
                     JSONDecodeError) (VStr "j1") _).
    right. eexists. split; reflexivity.
Defined.

(** ** The download step *)

Lemma download_no_url w idx items s :
  Py.truthy (default VNone (Py.lookup "url" items)) = false ->
  download w idx (VDict items) s = (Ok tt, s).
Proof.
  intros H. unfold download, bind, lift. simpl.
  destruct (Py.lookup "url" items) as [u |]; simpl in *; rewrite ?H; reflexivity.
Qed.

Lemma download_with_url w idx items url s :
  Py.lookup "url" items = Some url ->
  Py.truthy url = true ->
  download w idx (VDict items) s =
  match requests_get w (trace s ++ announced items url) url [] with
  | Raise e => (Raise e, after s (shown items url) (files s))
  | Ok image_response =>
      if Z.eqb (status_code image_response) 200 then
        let filename :=
          ("outputs/image_"
           ++ strftime (datetime_now w (trace s ++ shown items url))
           ++ "_" ++ Py.str_nat idx ++ ".png")%string in
        (Ok tt,
         after s (shown items url
                  ++ [ EWrite filename (content image_response);
                       EPrint [Lit ("Image saved to " ++ filename)%string] ])
           (<[ filename := content image_response ]> (files s)))
      else (Ok tt, after s (shown items url) (files s))
  end.
Proof.
  intros Hurl Htruthy.
  unfold download, bind, lift, print, get, now, write_file, ret, Py.get,
    Py.getitem, after, shown, announced, log.
  cbn [trace files dirs fst snd app].
  rewrite Hurl, Htruthy. cbn [trace files dirs].
  rewrite <- !app_assoc. cbn [app].
  destruct (requests_get w _ url []) as [r | e]; [| reflexivity].
  destruct (Z.eqb (status_code r) 200); [| reflexivity].
  cbn [trace files dirs]. rewrite <- !app_assoc. reflexivity.
Qed.

(** The loop runs through a list piecewise, and the index of an element is
    the start index plus the number of elements before it. *)
Lemma download_all_app w idx l1 l2 s :
  download_all w idx (l1 ++ l2) s =
  bind (download_all w idx l1)
       (fun _ => download_all w (idx + length l1) l2) s.
Proof.
  revert idx s. induction l1 as [| r l1 IH]; intros idx s.
  - simpl. unfold bind, ret. rewrite Nat.add_0_r. reflexivity.
  - simpl. unfold bind at 1 2 3.
    destruct (download w idx r s) as [[[] | e] s']; [| reflexivity].
    rewrite IH. replace (S idx + length l1) with (idx + S (length l1)) by lia.
    reflexivity.
Qed.

(** The element at position [length before] of [job_result] is handled by
    [download] with exactly that index, once the elements before it have been
    handled. *)
Lemma download_all_at w before result rest s0 s :
  download_all w 0 before s0 = (Ok tt, s) ->
  download_all w 0 (before ++ result :: rest) s0 =
  bind (download w (length before) result)
       (fun _ => download_all w (S (length before)) rest) s.
Proof.
  intros H. rewrite download_all_app. unfold bind at 1. rewrite H.
  reflexivity.
Qed.



(** C3: when the URL of a result answers with a status other than 200, the
    download step writes no file and raises nothing; nothing is printed after
    the request, and the loop goes on with the next result. *)
Theorem download_skips_other_status
    (w : World) (idx : nat) (items : list (string * value)) (url : value)
    (resp : Response) (rest : list value) (s : State) :
  let s' := after s (shown items url) (files s) in
  Py.lookup "url" items = Some url ->
  Py.truthy url = true ->
  requests_get w (trace s ++ announced items url) url [] = Ok resp ->
  status_code resp ≠ 200%Z ->
  download w idx (VDict items) s = (Ok tt, s')
  ∧ count is_write (emitted (download w idx (VDict items)) s) = 0
  ∧ files s' = files s
  ∧ download_all w idx (VDict items :: rest) s
    = download_all w (S idx) rest s'.
Proof.
  intros s' Hurl Htruthy Hget Hstatus.
  assert (Hstep : download w idx (VDict items) s = (Ok tt, s')).
  { rewrite (download_with_url w idx items url s Hurl Htruthy).
    rewrite Hget. apply Z.eqb_neq in Hstatus. rewrite Hstatus. reflexivity. }
  split; [exact Hstep |]. split.
  { rewrite (emitted_extends _ s (shown items url)).
    - reflexivity.
    - rewrite Hstep. reflexivity. }
  split; [reflexivity |].
  simpl. unfold bind. rewrite Hstep. reflexivity.
Qed.

Lemma download_skips_other_status_witness :
  download
    (Sample.server Sample.finished Sample.finished
       (Sample.reply 404 [] (Raise JSONDecodeError)))
    0 Sample.one_result initial
  = (Ok tt,
     {| trace :=
          [ EPrint [Lit "Image URL: ";
                    Str (VStr "http://127.0.0.1:8888/files/a.png")];
            EPrint [Lit "Seed: "; Str (VInt 7)];
            EGet (VStr "http://127.0.0.1:8888/files/a.png") [] ];
        files := ∅;
        dirs := ∅ |}).
Proof.
  refine (proj1 (download_skips_other_status
                   (Sample.server Sample.finished Sample.finished
                      (Sample.reply 404 [] (Raise JSONDecodeError)))
                   0
                   [("url", VStr "http://127.0.0.1:8888/files/a.png");
                    ("seed", VInt 7)]
                   (VStr "http://127.0.0.1:8888/files/a.png")
                   (Sample.reply 404 [] (Raise JSONDecodeError))
                   [] initial _ _ _ _)); try reflexivity.
  discriminate.
Defined.

(** C8: a result whose [url] is missing or falsy is passed over: the step
    prints nothing, sends no request, writes no file, raises nothing, and the
    loop goes on with the next result. *)
Theorem download_passes_over_missing_url
    (w : World) (idx : nat) (items : list (string * value))
    (rest : list value) (s : State) :
  Py.truthy (default VNone (Py.lookup "url" items)) = false ->
  download w idx (VDict items) s = (Ok tt, s)
  ∧ emitted (download w idx (VDict items)) s = []
  ∧ download_all w idx (VDict items :: rest) s
    = download_all w (S idx) rest s.
Proof.
  intros H.
  pose proof (download_no_url w idx items s H) as Hstep.
  split; [exact Hstep |]. split.
  - apply emitted_extends. rewrite Hstep. simpl. rewrite app_nil_r. reflexivity.
  - simpl. unfold bind. rewrite Hstep. reflexivity.
Qed.

Lemma download_passes_over_missing_url_witness :
  download_all Sample.unreachable 0
    [VDict [("seed", VInt 7)]; VDict [("url", VStr ""); ("seed", VInt 8)]]
    initial
  = (Ok tt, initial).
Proof.
  rewrite (proj2 (proj2 (download_passes_over_missing_url
                           Sample.unreachable 0 [("seed", VInt 7)]
                           [VDict [("url", VStr ""); ("seed", VInt 8)]]
                           initial eq_refl))).
  rewrite (proj2 (proj2 (download_passes_over_missing_url
                           Sample.unreachable 1
                           [("url", VStr ""); ("seed", VInt 8)]
                           [] initial eq_refl))).
  reflexivity.
Defined.

(** ** Contained computations *)

Section Contained.

Context {A B : Type}.

Lemma contained_ret (a : A) : contained (ret a).
Proof. intros s. exists []. simpl. rewrite app_nil_r. auto. Qed.

Lemma contained_lift (r : result A) : contained (lift r).
Proof. intros s. exists []. simpl. rewrite app_nil_r. auto. Qed.

Lemma contained_bind (m : M A) (k : A -> M B) :
  contained m -> (∀ a, contained (k a)) -> contained (bind m k).
Proof.
  intros Hm Hk s. unfold bind.
  destruct (Hm s) as (ext1 & Ht1 & Hd1 & Hl1).
  destruct (m s) as [[a | e] s1]; simpl in *.
  - destruct (Hk a s1) as (ext2 & Ht2 & Hd2 & Hl2).
    exists (ext1 ++ ext2). rewrite Ht2, Ht1, Hd2, Hd1, app_assoc.
    rewrite forallb_app, Hl1, Hl2. auto.
  - exists ext1. auto.
Qed.

Lemma contained_if (b : bool) (m1 m2 : M A) :
  contained m1 -> contained m2 -> contained (if b then m1 else m2).
Proof. destruct b; auto. Qed.

End Contained.

Lemma contained_print line : contained (print line).
Proof. intros s. exists [EPrint line]. auto. Qed.

Lemma contained_get_plain w url : contained (get w url []).
Proof. intros s. exists [EGet url []]. auto. Qed.

Lemma contained_now w : contained (now w).
Proof. intros s. exists []. simpl. rewrite app_nil_r. auto. Qed.

Lemma contained_write_file path data : contained (write_file path data).
Proof. intros s. exists [EWrite path data]. auto. Qed.

Create HintDb contained.
#[local] Hint Resolve contained_ret contained_lift contained_print
  contained_get_plain contained_now contained_write_file : contained.

Ltac contained_step :=
  first
    [ apply contained_bind; [| intros ? ]
    | apply contained_if
    | solve [ auto with contained ] ].

Lemma contained_download w idx result : contained (download w idx result).
Proof. unfold download. repeat contained_step. Qed.

Lemma contained_download_all w idx results :
  contained (download_all w idx results).
Proof.
  revert idx. induction results as [| r rest IH]; intros idx; simpl.
  - apply contained_ret.
  - apply contained_bind; [apply contained_download | intros _; apply IH].
Qed.

(** Local events are neither POSTs, nor status queries, nor directory
    creations. *)
Lemma count_local (f : event -> bool) (evs : list event) :
  (∀ e, is_local e = true -> f e = false) ->
  forallb is_local evs = true -> count f evs = 0.
Proof.
  intros Hf. induction evs as [| e evs IH]; simpl; [reflexivity |].
  intros H. apply andb_true_iff in H as [He Hevs].
  rewrite (Hf e He), IH by assumption. reflexivity.
Qed.

Lemma local_not_post e : is_local e = true -> is_post e = false.
Proof. destruct e; simpl; congruence. Qed.

Lemma local_not_makedirs e : is_local e = true -> is_makedirs e = false.
Proof. destruct e; simpl; congruence. Qed.

Lemma local_not_poll e : is_local e = true -> is_poll e = false.
Proof.
  destruct e as [| | url query | |]; simpl; try congruence.
  destruct query; [| discriminate]. destruct url; reflexivity.
Qed.

Lemma posted_local evs : forallb is_local evs = true -> posted evs = [].
Proof.
  induction evs as [| e evs IH]; simpl; [reflexivity |].
  intros H. apply andb_true_iff in H as [He Hevs].
  destruct e; simpl in He; try discriminate; auto.
Qed.

(** ** The loop over [job_result] *)

Lemma download_handled w idx result s :
  ∃ evs,
    trace (download w idx result s).2 = trace s ++ evs
    ∧ handled idx result evs (download w idx result s).1.
Proof.
  destruct result as [| b | z | f | str | l | items];
    try (exists []; simpl; rewrite app_nil_r; split; [reflexivity |];
         apply handled_not_object; discriminate).
  destruct (Py.lookup "url" items) as [url |] eqn:Hurl.
  - destruct (Py.truthy url) eqn:Htruthy.
    + rewrite (download_with_url w idx items url s Hurl Htruthy).
      destruct (requests_get w _ url []) as [r | e].
      * destruct (Z.eqb (status_code r) 200).
        -- eexists. split; [reflexivity |].
           apply (handled_saved idx items url _ (content r) Hurl Htruthy).
        -- eexists. split; [reflexivity |]. now apply handled_not_saved.
      * eexists. split; [reflexivity |]. now apply handled_unreachable.
    + rewrite download_no_url by (rewrite Hurl; exact Htruthy).
      exists []. simpl. rewrite app_nil_r. split; [reflexivity |].
      apply handled_no_url. rewrite Hurl. exact Htruthy.
  - rewrite download_no_url by (rewrite Hurl; reflexivity).
    exists []. simpl. rewrite app_nil_r. split; [reflexivity |].
    apply handled_no_url. rewrite Hurl. reflexivity.
Qed.

Lemma download_all_visited w results : ∀ idx s,
  ∃ evs,
    trace (download_all w idx results s).2 = trace s ++ evs
    ∧ visited idx results evs (download_all w idx results s).1.
Proof.
  induction results as [| result rest IH]; intros idx s.
  - exists []. simpl. rewrite app_nil_r. split; [reflexivity | constructor].
  - destruct (download_handled w idx result s) as (evs & Ht & Hh).
    simpl. unfold bind.
    destruct (download w idx result s) as [[[] | e] s1]; simpl in *.
    + destruct (IH (S idx) s1) as (evs' & Ht' & Hv).
      exists (evs ++ evs'). rewrite Ht', Ht, app_assoc.
      split; [reflexivity |]. now apply visited_cons.
    + exists evs. split; [exact Ht |]. now apply visited_raise.
Qed.





(** ** The main flow, piece by piece *)

Lemma main_unfold w :
  main w =
  (print [Lit "Sending text-to-image request with prompt: 'A beautiful landscape with mountains, a lake, and a sunset'"] ;;
   response <- text_to_image w
                 "A beautiful landscape with mountains, a lake, and a sunset"
                 (Some "ugly, blurry, low quality") None None ;;
   after_submit w response).
Proof. reflexivity. Qed.

Lemma makedirs_exist_ok path s :
  files s !! path = None ->
  makedirs path true s =
  (Ok tt, {| trace := trace s ++ [EMakedirs path true]; files := files s;
             dirs := {[ path ]} ∪ dirs s |}).
Proof.
  intros Hfree. unfold makedirs. rewrite Hfree. simpl.
  destruct (decide (path ∈ dirs s)) as [Hin | Hout].
  - f_equal. unfold log. f_equal. symmetry.
    apply subseteq_union_1_L, singleton_subseteq_l. exact Hin.
  - reflexivity.
Qed.

Lemma makedirs_blocked path exist_ok s data :
  files s !! path = Some data ->
  makedirs path exist_ok s
  = (Raise FileExistsError, log (EMakedirs path exist_ok) s).
Proof. intros Hfile. unfold makedirs. rewrite Hfile. reflexivity. Qed.

(** The submit request of [main]: one POST, whatever comes back. *)
Lemma main_submit w s :
  text_to_image w "A beautiful landscape with mountains, a lake, and a sunset"
    (Some "ugly, blurry, low quality") None None (log announcement s)
  = (match submit_answer w s with
     | Ok r => json r
     | Raise e => Raise e
     end, log submission (log announcement s)).
Proof.
  unfold text_to_image, bind, post, lift, submit_answer. simpl.
  destruct (requests_post _ _ _ _ _); reflexivity.
Qed.

Lemma main_start w s :
  main w s =
  match submit_answer w s with
  | Ok r =>
      match json r with
      | Ok response =>
          after_submit w response (log submission (log announcement s))
      | Raise e => (Raise e, log submission (log announcement s))
      end
  | Raise e => (Raise e, log submission (log announcement s))
  end.
Proof.
  rewrite main_unfold. unfold bind at 1. unfold print at 1.
  fold announcement. unfold bind at 1. rewrite main_submit.
  destruct (submit_answer w s) as [r | e]; [| reflexivity].
  destruct (json r); reflexivity.
Qed.

Lemma after_submit_not_object w response s :
  (∀ items, response ≠ VDict items) ->
  after_submit w response s
  = (Raise AttributeError, log (EPrint [Dumps response]) s).
Proof.
  intros H. destruct response; try reflexivity. now destruct (H items).
Qed.

Lemma after_submit_no_job w resp s :
  Py.truthy (default VNone (Py.lookup "job_id" resp)) = false ->
  after_submit w (VDict resp) s = (Ok tt, log (EPrint [Dumps (VDict resp)]) s).
Proof.
  intros H. unfold after_submit, bind, print, lift, Py.get.
  change (match Py.lookup "job_id" resp with Some x => x | None => VNone end)
    with (default VNone (Py.lookup "job_id" resp)).
  rewrite H. reflexivity.
Qed.

Lemma after_submit_job w resp job_id s :
  Py.lookup "job_id" resp = Some job_id ->
  Py.truthy job_id = true ->
  files s !! "outputs" = None ->
  let s1 := before_query s (VDict resp) job_id in
  after_submit w (VDict resp) s =
  match requests_get w (trace s1)
          (VStr "http://127.0.0.1:8888/v1/generation/query-job")
          [("job_id", job_id)] with
  | Ok r =>
      match json r with
      | Ok job_status =>
          after_status w job_id job_status (log (status_query job_id) s1)
      | Raise e => (Raise e, log (status_query job_id) s1)
      end
  | Raise e => (Raise e, log (status_query job_id) s1)
  end.
Proof.
  intros Hid Htruthy Hfree s1.
  unfold after_submit. unfold bind at 1. unfold print at 1.
  unfold bind at 1. unfold lift at 1, Py.get. rewrite Hid, Htruthy.
  unfold bind at 1. unfold lift at 1, Py.getitem. rewrite Hid.
  unfold bind at 1. unfold print at 1.
  unfold bind at 1. unfold print at 1.
  unfold bind at 1. rewrite makedirs_exist_ok by exact Hfree.
  unfold bind at 1. rewrite check_job_status_unfold.
  unfold bind at 1. unfold get at 1. unfold lift.
  cbn [trace files dirs log].
  replace ((((trace s ++ [EPrint [Dumps (VDict resp)]]) ++
             [EPrint [Lit (String "010" "Job ID: "); Str job_id]]) ++
            [EPrint [Lit "Checking job status..."]]) ++
           [EMakedirs "outputs" true])
    with (trace s1)
    by (unfold s1, before_query, job_lines; cbn [trace];
        rewrite <- !app_assoc; reflexivity).
  destruct (requests_get w (trace s1) _ _) as [r | e]; [| reflexivity].
  destruct (json r); reflexivity.
Qed.

(** A regular file named [outputs] ends the run at [makedirs]. *)
Lemma after_submit_blocked w resp job_id s data :
  Py.lookup "job_id" resp = Some job_id ->
  Py.truthy job_id = true ->
  files s !! "outputs" = Some data ->
  after_submit w (VDict resp) s
  = (Raise FileExistsError,
     after s ([EPrint [Dumps (VDict resp)]] ++ job_lines job_id
              ++ [EMakedirs "outputs" true]) (files s)).
Proof.
  intros Hid Htruthy Hfile.
  unfold after_submit. unfold bind at 1. unfold print at 1.
  unfold bind at 1. unfold lift at 1, Py.get. rewrite Hid, Htruthy.
  unfold bind at 1. unfold lift at 1, Py.getitem. rewrite Hid.
  unfold bind at 1. unfold print at 1.
  unfold bind at 1. unfold print at 1.
  unfold bind at 1.
  rewrite (makedirs_blocked "outputs" true _ data) by exact Hfile.
  unfold after, log, job_lines. cbn [trace files dirs].
  rewrite <- !app_assoc. reflexivity.
Qed.

Lemma after_status_object w job_id st s :
  let job_status := VDict st in
  let stage := default VNone (Py.lookup "job_stage" st) in
  let job_result := default VNone (Py.lookup "job_result" st) in
  let hint := if still_processing stage then retry_hint job_id else [] in
  let s2 := after s (EPrint [Dumps job_status] :: hint) (files s) in
  after_status w job_id job_status s =
  if Py.truthy job_result then
    match Py.iter job_result with
    | Ok results => download_all w 0 results s2
    | Raise e => (Raise e, s2)
    end
  else (Ok tt, s2).
Proof.
  intros job_status stage job_result hint s2.
  unfold after_status, bind, print, lift, ret, Py.get, Py.getitem, job_status.
  change (match Py.lookup "job_stage" st with
          | Some x => x | None => VNone end) with stage.
  change (match Py.lookup "job_result" st with
          | Some x => x | None => VNone end) with job_result.
  assert (Hstate : ∀ evs,
    after s (EPrint [Dumps (VDict st)] :: evs) (files s)
    = fold_left (fun s0 e => log e s0) evs (log (EPrint [Dumps (VDict st)]) s)).
  { intros evs. unfold after.
    change (EPrint [Dumps (VDict st)] :: evs)
      with ([EPrint [Dumps (VDict st)]] ++ evs).
    rewrite app_assoc. change (trace s ++ [EPrint [Dumps (VDict st)]])
      with (trace (log (EPrint [Dumps (VDict st)]) s)).
    change (files s) with (files (log (EPrint [Dumps (VDict st)]) s)).
    change (dirs s) with (dirs (log (EPrint [Dumps (VDict st)]) s)).
    generalize (log (EPrint [Dumps (VDict st)]) s). clear.
    induction evs as [| e evs IH]; intros s0; simpl.
    - rewrite app_nil_r. destruct s0; reflexivity.
    - rewrite <- IH. simpl. rewrite <- app_assoc. reflexivity. }
  unfold s2, hint, still_processing, job_status. rewrite Hstate.
  destruct (Py.eq_str stage "PENDING" || Py.eq_str stage "RUNNING");
    cbv beta iota; unfold retry_hint; simpl fold_left;
    (destruct (Py.truthy job_result) eqn:Htruthy; [| reflexivity]);
    unfold job_result in *;
    (destruct (Py.lookup "job_result" st) as [jr |]; [| discriminate]);
    simpl; destruct (Py.iter jr); reflexivity.
Qed.

Lemma contained_after_status w job_id job_status :
  contained (after_status w job_id job_status).
Proof.
  unfold after_status.
  repeat first [ apply contained_download_all | contained_step ].
Qed.

Lemma status_answer_trace w s response job_id :
  requests_get w
    (trace (before_query (log submission (log announcement s)) response job_id))
    (VStr "http://127.0.0.1:8888/v1/generation/query-job")
    [("job_id", job_id)]
  = status_answer w s response job_id.
Proof.
  unfold status_answer, before_query, log. cbn [trace].
  rewrite <- !app_assoc. reflexivity.
Qed.

(** With a truthy [job_id], the directory is created and the status query
    sent; whatever follows is local. *)
Lemma after_submit_job_trace w resp job_id s :
  Py.lookup "job_id" resp = Some job_id ->
  Py.truthy job_id = true ->
  files s !! "outputs" = None ->
  ∃ ext,
    trace (after_submit w (VDict resp) s).2
    = trace s ++ [EPrint [Dumps (VDict resp)]] ++ job_lines job_id
      ++ [EMakedirs "outputs" true; status_query job_id] ++ ext
    ∧ forallb is_local ext = true
    ∧ dirs (after_submit w (VDict resp) s).2 = {[ "outputs" ]} ∪ dirs s.
Proof.
  intros Hid Htruthy Hfree.
  rewrite (after_submit_job w resp job_id s Hid Htruthy Hfree). cbv zeta.
  set (s1 := before_query s (VDict resp) job_id).
  assert (Hquiet :
    trace (log (status_query job_id) s1)
    = trace s ++ [EPrint [Dumps (VDict resp)]] ++ job_lines job_id
      ++ [EMakedirs "outputs" true; status_query job_id] ++ []).
  { unfold s1, before_query, log, job_lines. cbn [trace].
    rewrite <- !app_assoc. reflexivity. }
  destruct (requests_get w (trace s1) _ _) as [r | e].
  - destruct (json r) as [job_status | e].
    + destruct (contained_after_status w job_id job_status
                  (log (status_query job_id) s1)) as (ext & Ht & Hd & Hl).
      exists ext. rewrite Ht, Hd. split; [| auto].
      unfold s1, before_query, log, job_lines. cbn [trace].
      rewrite <- !app_assoc. reflexivity.
    + exists []. simpl snd. rewrite Hquiet. auto.
  - exists []. simpl snd. rewrite Hquiet. auto.
Qed.

Lemma after_submit_trace w response s :
  ∃ rest,
    trace (after_submit w response s).2 = trace s ++ rest
    ∧ posted rest = []
    ∧ (count is_poll rest ≤ 1)%nat.
Proof.
  destruct response as [| b | z | f | str | l | resp];
    try (rewrite after_submit_not_object by discriminate;
         eexists; split; [reflexivity |]; simpl; split; [reflexivity | lia]).
  destruct (Py.truthy (default VNone (Py.lookup "job_id" resp))) eqn:Htruthy.
  - destruct (Py.lookup "job_id" resp) as [job_id |] eqn:Hid;
      [| discriminate]. simpl in Htruthy.
    destruct (files s !! "outputs") as [data |] eqn:Hfile.
    + rewrite (after_submit_blocked w resp job_id s data Hid Htruthy Hfile).
      eexists. split; [reflexivity |]. simpl. split; [reflexivity | lia].
    + destruct (after_submit_job_trace w resp job_id s Hid Htruthy Hfile)
        as (ext & Ht & Hl & _).
      eexists. split; [exact Ht |].
      rewrite !posted_app, !count_app.
      rewrite (posted_local ext Hl), (count_local _ ext local_not_poll Hl).
      split; [reflexivity |]. simpl. lia.
  - rewrite after_submit_no_job by assumption.
    eexists. split; [reflexivity |]. simpl. split; [reflexivity | lia].
Qed.

(** Every run of [main] opens with the announcement and the submit request;
    nothing after them is a POST, and at most one event is a status query. *)
Lemma main_trace w s :
  ∃ rest,
    trace (main w s).2 = trace s ++ [announcement; submission] ++ rest
    ∧ posted rest = []
    ∧ (count is_poll rest ≤ 1)%nat.
Proof.
  rewrite main_start.
  assert (Hstop :
    trace (log submission (log announcement s))
    = trace s ++ [announcement; submission] ++ []).
  { unfold log. cbn [trace]. rewrite <- app_assoc. reflexivity. }
  destruct (submit_answer w s) as [r | e].
  - destruct (json r) as [response | e].
    + destruct (after_submit_trace w response
                  (log submission (log announcement s)))
        as (rest & Ht & Hp & Hc).
      exists rest. rewrite Ht. split; [| auto].
      unfold log. cbn [trace]. rewrite <- !app_assoc. reflexivity.
    + exists []. simpl snd. rewrite Hstop. simpl. auto with lia.
  - exists []. simpl snd. rewrite Hstop. simpl. auto with lia.
Qed.

Lemma handled_local idx result evs out :
  handled idx result evs out -> forallb is_local evs = true.
Proof. intros H. destruct H; reflexivity. Qed.

Lemma visited_local idx results evs out :
  visited idx results evs out -> forallb is_local evs = true.
Proof.
  induction 1 as [| idx result rest evs e Hh
                  | idx result rest evs evs' out Hh Hv IH].
  - reflexivity.
  - eapply handled_local; eassumption.
  - rewrite forallb_app, IH, (handled_local _ _ _ _ Hh). reflexivity.
Qed.

(** ** The main flow *)




(** C9 (as stated) fails: the submit answer below contains a job id, the
    empty string, and the run creates no directory. *)
Lemma main_no_directory_for_empty_job_id :
  let w := Sample.server (Sample.accepted (VStr "")) Sample.finished
             (Sample.reply 200 Sample.png (Raise JSONDecodeError)) in
  answers (submit_answer w initial) (Sample.accepted (VStr ""))
  ∧ field (Sample.accepted (VStr "")) "job_id" = Some (VStr "")
  ∧ count is_makedirs (trace (main w initial).2) = 0
  ∧ dirs (main w initial).2 = ∅.
Proof.
  cbv zeta. split; [eexists; split; reflexivity |].
  split; [reflexivity |]. split; reflexivity.
Qed.

(** C9 (amended): when the submit request is answered with a JSON object whose
    [job_id] is truthy and no regular file named [outputs] is in the way,
    [main] creates the [outputs] directory before it sends the status query,
    whether or not the directory existed and whatever the query brings back:
    nothing after the query creates a directory, and [outputs] exists at the
    end.  When a regular file named [outputs] is in the way, [makedirs] ends
    the run with [FileExistsError]: no directory is created and no status
    query sent.  When the object has no [job_id], or a falsy one, no
    directory is created. *)
Theorem main_creates_outputs_before_query
    (w : World) (s : State) (resp : list (string * value)) :
  answers (submit_answer w s) (VDict resp) ->
  let response := VDict resp in
  let job_id := default VNone (Py.lookup "job_id" resp) in
  let final := (main w s).2 in
  if Py.truthy job_id then
    match files s !! "outputs" with
    | None =>
        (∃ rest,
           emitted (main w) s
           = [announcement; submission; EPrint [Dumps response]]
             ++ job_lines job_id
             ++ [EMakedirs "outputs" true; status_query job_id] ++ rest
           ∧ count is_makedirs rest = 0)
        ∧ "outputs" ∈ dirs final
        ∧ dirs final = {[ "outputs" ]} ∪ dirs s
    | Some _ =>
        emitted (main w) s
        = [announcement; submission; EPrint [Dumps response]]
          ++ job_lines job_id ++ [EMakedirs "outputs" true]
        ∧ (main w s).1 = Raise FileExistsError
        ∧ dirs final = dirs s
    end
  else
    count is_makedirs (emitted (main w) s) = 0
    ∧ dirs final = dirs s.
Proof.
  intros (r & Hr & Hj). cbv zeta.
  set (s0 := log submission (log announcement s)).
  assert (Hmain : main w s = after_submit w (VDict resp) s0).
  { rewrite main_start, Hr, Hj. reflexivity. }
  rewrite Hmain.
  destruct (Py.truthy (default VNone (Py.lookup "job_id" resp))) eqn:Htruthy.
  - destruct (Py.lookup "job_id" resp) as [jid |] eqn:Hid; [| discriminate].
    simpl in Htruthy. simpl default.
    destruct (files s !! "outputs") as [data |] eqn:Hfile.
    + rewrite (emitted_extends _ s
                 ([announcement; submission; EPrint [Dumps (VDict resp)]]
                  ++ job_lines jid ++ [EMakedirs "outputs" true])).
      * rewrite (after_submit_blocked w resp jid s0 data Hid Htruthy Hfile).
        split; [reflexivity |]. split; reflexivity.
      * rewrite Hmain,
          (after_submit_blocked w resp jid s0 data Hid Htruthy Hfile).
        unfold after, s0, job_lines. unfold log. cbn [snd trace].
        rewrite <- !app_assoc. reflexivity.
    + destruct (after_submit_job_trace w resp jid s0 Hid Htruthy Hfile)
        as (ext & Ht & Hl & Hd).
      rewrite Hd. split; [| split; [| reflexivity]].
      * exists ext.
        split; [| exact (count_local _ ext local_not_makedirs Hl)].
        apply emitted_extends. rewrite Hmain, Ht.
        unfold s0, log. cbn [trace]. rewrite <- !app_assoc. reflexivity.
      * apply elem_of_union_l, elem_of_singleton. reflexivity.
  - rewrite (emitted_extends _ s [announcement; submission;
                                  EPrint [Dumps (VDict resp)]]).
    + rewrite (after_submit_no_job w resp s0 Htruthy). split; reflexivity.
    + rewrite Hmain, (after_submit_no_job w resp s0 Htruthy).
      simpl snd. unfold s0, log. cbn [trace]. rewrite <- !app_assoc.
      reflexivity.
Qed.

Lemma main_creates_outputs_before_query_witness :
  let w := Sample.server (Sample.accepted (VStr "j1"))
             (VDict [("job_id", VStr "j1"); ("job_stage", VStr "RUNNING")])
             (Sample.reply 200 Sample.png (Raise JSONDecodeError)) in
  (∃ rest,
     emitted (main w) initial
     = [announcement; submission;
        EPrint [Dumps (Sample.accepted (VStr "j1"))]]
       ++ job_lines (VStr "j1")
       ++ [EMakedirs "outputs" true; status_query (VStr "j1")] ++ rest
     ∧ count is_makedirs rest = 0)
  ∧ "outputs" ∈ dirs (main w initial).2
  ∧ dirs (main w initial).2 = {[ "outputs" ]} ∪ dirs initial.
Proof.
  cbv zeta.
  exact (main_creates_outputs_before_query
           (Sample.server (Sample.accepted (VStr "j1"))
              (VDict [("job_id", VStr "j1"); ("job_stage", VStr "RUNNING")])
              (Sample.reply 200 Sample.png (Raise JSONDecodeError)))
           initial
           [("job_id", VStr "j1"); ("job_stage", VStr "PENDING")]
           (ex_intro _
              (Sample.reply 200 [] (Ok (Sample.accepted (VStr "j1"))))
              (conj eq_refl eq_refl))).
Defined.

(** C10: [text_to_image] called without [async_process] sends
    [async_process = true]; and every run of [main] sends exactly one POST,
    whose body has [async_process = true]. *)
Theorem main_requests_asynchronous_processing :
  (∀ (w : World) (prompt : string) (negative_prompt : option string)
     (style_selections : option value) (s : State),
     ∃ body,
       emitted (text_to_image w prompt negative_prompt style_selections None) s
       = [EPost "http://127.0.0.1:8888/v1/generation/text-to-image" body
            [("Content-Type", "application/json")]]
       ∧ field body "async_process" = Some (VBool true))
  ∧ (∀ (w : World) (s : State),
       ∃ body,
         posted (emitted (main w) s) = [body]
         ∧ field body "async_process" = Some (VBool true)).
Proof.
  split.
  - intros w prompt negative_prompt style_selections s.
    destruct (text_to_image_state w prompt negative_prompt style_selections
                None s) as (body & Hst & Hasync & _).
    exists body. split; [| exact Hasync].
    apply emitted_extends. rewrite Hst. apply trace_log.
  - intros w s. destruct (main_trace w s) as (rest & Ht & Hp & _).
    rewrite (emitted_extends _ _ _ Ht). simpl. rewrite Hp.
    eexists. split; reflexivity.
Qed.

(** ** File names *)

Lemma occurs_app c a b : occurs c (a ++ b)%string = occurs c a || occurs c b.
Proof.
  induction a as [| x a IH]; simpl; [reflexivity |].
  rewrite IH, orb_assoc. reflexivity.
Qed.

(** Two strings cut at a character that occurs in neither tail agree on both
    sides of the cut. *)
Lemma append_split c a b d1 d2 :
  occurs c d1 = false -> occurs c d2 = false ->
  (a ++ String c d1 = b ++ String c d2)%string -> a = b ∧ d1 = d2.
Proof.
  intros H1 H2. revert b.
  induction a as [| x a IH]; intros [| y b] H; simpl in H.
  - injection H as ->. auto.
  - injection H as <- ->.
    rewrite occurs_app in H1. simpl in H1.
    rewrite Ascii.eqb_refl, orb_true_r in H1. discriminate.
  - injection H as -> <-.
    rewrite occurs_app in H2. simpl in H2.
    rewrite Ascii.eqb_refl, orb_true_r in H2. discriminate.
  - injection H as -> H. destruct (IH b H) as [-> ->]. auto.
Qed.

Lemma append_inj_l p a b : (p ++ a = p ++ b)%string -> a = b.
Proof.
  induction p as [| x p IH]; simpl; [auto |]. intros H. injection H. auto.
Qed.

Lemma to_uint_nonnil n : Nat.to_uint n ≠ Decimal.Nil.
Proof.
  rewrite <- (DecimalNat.Unsigned.of_to n) at 1.
  rewrite DecimalNat.Unsigned.to_of. apply DecimalFacts.unorm_nonnil.
Qed.

Lemma str_nat_inj i j : Py.str_nat i = Py.str_nat j -> i = j.
Proof.
  unfold Py.str_nat. intros H.
  apply DecimalNat.Unsigned.to_uint_inj.
  assert (Hs : Some (Nat.to_uint i) = Some (Nat.to_uint j)).
  { rewrite <- (NilZero.usu _ (to_uint_nonnil i)),
            <- (NilZero.usu _ (to_uint_nonnil j)), H. reflexivity. }
  congruence.
Qed.

Lemma digits_without (c : ascii) d :
  forallb (fun x => negb (Ascii.eqb x c))
    ["0"; "1"; "2"; "3"; "4"; "5"; "6"; "7"; "8"; "9"]%char = true ->
  occurs c (NilEmpty.string_of_uint d) = false.
Proof.
  intros H. simpl in H. rewrite !andb_true_iff, !negb_true_iff in H.
  induction d; simpl; rewrite ?IHd, ?orb_false_r; tauto.
Qed.

Lemma str_nat_without (c : ascii) n :
  forallb (fun x => negb (Ascii.eqb x c))
    ["0"; "1"; "2"; "3"; "4"; "5"; "6"; "7"; "8"; "9"]%char = true ->
  occurs c (Py.str_nat n) = false.
Proof.
  intros H. unfold Py.str_nat, NilZero.string_of_uint.
  pose proof (digits_without c (Nat.to_uint n) H) as Hd.
  destruct (Nat.to_uint n); try exact Hd.
  simpl in H. rewrite !andb_true_iff, !negb_true_iff in H.
  simpl. rewrite orb_false_r. tauto.
Qed.

(** The index can be read back from a file name, whatever the timestamp. *)
Lemma image_path_index ts1 ts2 i j :
  image_path ts1 i = image_path ts2 j -> i = j.
Proof.
  unfold image_path. intros H. apply append_inj_l in H.
  change (ts1 ++ String "_" (Py.str_nat i ++ String "." "png")
          = ts2 ++ String "_" (Py.str_nat j ++ String "." "png"))%string in H.
  apply append_split in H as [_ H].
  - apply append_split in H as [H _]; [now apply str_nat_inj | reflexivity ..].
  - rewrite occurs_app, (str_nat_without "_" i eq_refl). reflexivity.
  - rewrite occurs_app, (str_nat_without "_" j eq_refl). reflexivity.
Qed.

(** ** Writes and image requests of the loop *)

Lemma written_app t1 t2 : written (t1 ++ t2) = written t1 ++ written t2.
Proof.
  induction t1 as [| e t1 IH]; simpl; [reflexivity |].
  destruct e; simpl; rewrite ?IH; reflexivity.
Qed.

Lemma fetched_app t1 t2 : fetched (t1 ++ t2) = fetched t1 ++ fetched t2.
Proof.
  induction t1 as [| e t1 IH]; simpl; [reflexivity |].
  destruct e as [| | url query | |]; simpl; rewrite ?IH; try reflexivity.
  destruct query; simpl; rewrite ?IH; reflexivity.
Qed.

Lemma written_quiet pre : forallb is_quiet pre = true -> written pre = [].
Proof.
  induction pre as [| e pre IH]; simpl; [reflexivity |].
  intros H. apply andb_true_iff in H as [He Hpre].
  destruct e; simpl in He; try discriminate; auto.
Qed.

Lemma fetched_quiet pre : forallb is_quiet pre = true -> fetched pre = [].
Proof.
  induction pre as [| e pre IH]; simpl; [reflexivity |].
  intros H. apply andb_true_iff in H as [He Hpre].
  destruct e as [| | url query | |]; simpl in He; try discriminate; auto.
  destruct query; [discriminate | auto].
Qed.

(** One result gives at most one write, under its own index, and exactly the
    request for its image URL, if it has one. *)
Lemma handled_written idx result evs out :
  handled idx result evs out ->
  written evs = [] ∨ ∃ ts data, written evs = [(image_path ts idx, data)].
Proof.
  intros H. destruct H; try (left; reflexivity).
  right. exists timestamp, data. reflexivity.
Qed.

Lemma handled_fetched idx result evs out :
  handled idx result evs out ->
  fetched evs = match image_url result with Some url => [url] | None => [] end.
Proof.
  intros H.
  destruct H as [items Hno | v Hv | items url e Hurl Ht | items url Hurl Ht
                 | items url ts data Hurl Ht]; simpl.
  - destruct (Py.lookup "url" items) as [u |]; [| reflexivity].
    simpl in Hno. rewrite Hno. reflexivity.
  - destruct v; try reflexivity. now destruct (Hv items).
  - rewrite Hurl, Ht. reflexivity.
  - rewrite Hurl, Ht. reflexivity.
  - rewrite Hurl, Ht. reflexivity.
Qed.

(** The image requests follow the results in order. *)
Lemma visited_fetched idx results evs out :
  visited idx results evs out ->
  fetched evs `prefix_of` image_urls results
  ∧ (out = Ok tt -> fetched evs = image_urls results).
Proof.
  induction 1 as [idx | idx result rest evs e Hh
                  | idx result rest evs evs' out Hh Hv [IHp IHe]].
  - split; [apply prefix_nil | reflexivity].
  - split; [| discriminate].
    rewrite (handled_fetched _ _ _ _ Hh). unfold image_urls. simpl.
    destruct (image_url result); [| apply prefix_nil].
    apply (prefix_app [v] [] _), prefix_nil.
  - rewrite fetched_app, (handled_fetched _ _ _ _ Hh).
    unfold image_urls in *. simpl.
    destruct (image_url result); simpl.
    + split; [now apply prefix_cons | intros ->; f_equal; auto].
    + auto.
Qed.

(** Every write of the loop carries an index from its own range. *)
Lemma visited_written idx results evs out :
  visited idx results evs out ->
  Forall (fun pd => ∃ ts i, pd.1 = image_path ts i
                            ∧ idx <= i < idx + length results)
    (written evs).
Proof.
  induction 1 as [idx | idx result rest evs e Hh
                  | idx result rest evs evs' out Hh Hv IH].
  - constructor.
  - destruct (handled_written _ _ _ _ Hh) as [-> | (ts & data & ->)];
      constructor; [| constructor].
    exists ts, idx. simpl. split; [reflexivity | lia].
  - rewrite written_app. apply Forall_app. split.
    + destruct (handled_written _ _ _ _ Hh) as [-> | (ts & data & ->)];
        constructor; [| constructor].
      exists ts, idx. simpl. split; [reflexivity | lia].
    + eapply Forall_impl; [exact IH |].
      intros pd (ts & i & Hp & Hi). exists ts, i. simpl. split; [exact Hp | lia].
Qed.

(** No two writes of the loop go to the same path. *)
Lemma visited_written_nodup idx results evs out :
  visited idx results evs out -> NoDup (written evs).*1.
Proof.
  induction 1 as [idx | idx result rest evs e Hh
                  | idx result rest evs evs' out Hh Hv IH].
  - constructor.
  - destruct (handled_written _ _ _ _ Hh) as [-> | (ts & data & ->)]; simpl.
    + constructor.
    + apply NoDup_singleton.
  - rewrite written_app, fmap_app.
    destruct (handled_written _ _ _ _ Hh) as [-> | (ts & data & ->)]; simpl.
    + exact IH.
    + constructor; [| exact IH].
      intros Hin. apply list_elem_of_fmap in Hin as ([p d] & Hp & Hin).
      simpl in Hp.
      pose proof (visited_written _ _ _ _ Hv) as Hall.
      rewrite Forall_forall in Hall.
      destruct (Hall (p, d) Hin) as (ts' & i & Hpi & Hi). simpl in Hpi.
      rewrite Hpi in Hp. apply image_path_index in Hp. lia.
Qed.

(** Never more files than image requests, never more requests than
    results. *)
Lemma visited_counts idx results evs out :
  visited idx results evs out ->
  length (written evs) <= length (fetched evs)
  ∧ length (fetched evs) <= length results.
Proof.
  induction 1 as [idx | idx result rest evs e Hh
                  | idx result rest evs evs' out Hh Hv [IHw IHf]].
  - simpl. lia.
  - inversion Hh; subst; simpl; lia.
  - rewrite written_app, fetched_app, !length_app.
    inversion Hh; subst; simpl in *; lia.
Qed.

(** ** The files follow the logged writes *)

Lemma apply_writes_app ws1 ws2 fs :
  apply_writes (ws1 ++ ws2) fs = apply_writes ws2 (apply_writes ws1 fs).
Proof. apply foldl_app. Qed.

Lemma apply_writes_other ws fs path :
  Forall (fun pd => pd.1 ≠ path) ws ->
  apply_writes ws fs !! path = fs !! path.
Proof.
  revert fs. induction ws as [| [p d] ws IH]; intros fs H; [reflexivity |].
  inversion H as [| ? ? Hp Hws]; subst. simpl in *.
  change (apply_writes ws (<[ p := d ]> fs) !! path = fs !! path).
  rewrite IH by assumption. apply lookup_insert_ne. exact Hp.
Qed.

Lemma apply_writes_lookup ws fs path data :
  NoDup ws.*1 -> (path, data) ∈ ws ->
  apply_writes ws fs !! path = Some data.
Proof.
  revert fs. induction ws as [| [p d] ws IH]; intros fs Hnd Hin.
  - inversion Hin.
  - simpl in Hnd. apply NoDup_cons in Hnd as [Hp Hnd].
    change (apply_writes ws (<[ p := d ]> fs) !! path = Some data).
    apply elem_of_cons in Hin as [Heq | Hin].
    + injection Heq as -> ->.
      rewrite apply_writes_other; [apply lookup_insert_eq |].
      apply Forall_forall. intros [p' d'] Hin' Heq. simpl in Heq. subst p'.
      apply Hp, list_elem_of_fmap. exists (p, d'). auto.
    + now apply IH.
Qed.

Section Tracked.

Context {A B : Type}.

Lemma tracked_ret (a : A) : tracked (ret a).
Proof. intros s. exists []. simpl. rewrite app_nil_r. auto. Qed.

Lemma tracked_lift (r : result A) : tracked (lift r).
Proof. intros s. exists []. simpl. rewrite app_nil_r. auto. Qed.

Lemma tracked_bind (m : M A) (k : A -> M B) :
  tracked m -> (∀ a, tracked (k a)) -> tracked (bind m k).
Proof.
  intros Hm Hk s. unfold bind.
  destruct (Hm s) as (ext1 & Ht1 & Hf1).
  destruct (m s) as [[a | e] s1]; simpl in *.
  - destruct (Hk a s1) as (ext2 & Ht2 & Hf2).
    exists (ext1 ++ ext2).
    rewrite Ht2, Ht1, Hf2, Hf1, app_assoc, written_app, apply_writes_app.
    auto.
  - exists ext1. auto.
Qed.

Lemma tracked_if (b : bool) (m1 m2 : M A) :
  tracked m1 -> tracked m2 -> tracked (if b then m1 else m2).
Proof. destruct b; auto. Qed.

End Tracked.

Lemma tracked_print line : tracked (print line).
Proof. intros s. exists [EPrint line]. auto. Qed.

Lemma tracked_post w url body headers : tracked (post w url body headers).
Proof. intros s. exists [EPost url body headers]. auto. Qed.

Lemma tracked_get w url query : tracked (get w url query).
Proof. intros s. exists [EGet url query]. split; [reflexivity |].
  destruct query; reflexivity. Qed.

Lemma tracked_now w : tracked (now w).
Proof. intros s. exists []. simpl. rewrite app_nil_r. auto. Qed.

Lemma tracked_makedirs path exist_ok : tracked (makedirs path exist_ok).
Proof.
  intros s. exists [EMakedirs path exist_ok]. unfold makedirs.
  destruct (files s !! path); [auto |].
  destruct (decide (path ∈ dirs s)); [destruct exist_ok |]; auto.
Qed.

Lemma tracked_write_file path data : tracked (write_file path data).
Proof. intros s. exists [EWrite path data]. auto. Qed.

Create HintDb tracked.
#[local] Hint Resolve tracked_ret tracked_lift tracked_print tracked_post
  tracked_get tracked_now tracked_makedirs tracked_write_file : tracked.

Ltac tracked_step :=
  first
    [ apply tracked_bind; [| intros ? ]
    | apply tracked_if
    | solve [ auto with tracked ] ].

Lemma tracked_download_all w idx results :
  tracked (download_all w idx results).
Proof.
  revert idx. induction results as [| r rest IH]; intros idx; simpl.
  - apply tracked_ret.
  - apply tracked_bind; [| intros _; apply IH].
    unfold download. repeat tracked_step.
Qed.

Lemma tracked_main w : tracked (main w).
Proof.
  unfold main, text_to_image, check_job_status.
  repeat first [ apply tracked_download_all | tracked_step ].
Qed.

(** ** Every run of [main]: what precedes the loop, and the loop *)

Lemma after_status_not_object w job_id job_status s :
  (∀ items, job_status ≠ VDict items) ->
  after_status w job_id job_status s
  = (Raise AttributeError, log (EPrint [Dumps job_status]) s).
Proof.
  intros H. destruct job_status; try reflexivity. now destruct (H items).
Qed.

Lemma quiet_status_lines job_status job_id stage :
  forallb is_quiet
    (EPrint [Dumps job_status]
     :: (if still_processing stage then retry_hint job_id else [])) = true.
Proof. destruct (still_processing stage); reflexivity. Qed.

Lemma after_status_downloads w job_id job_status s :
  ∃ pre results evs out,
    trace (after_status w job_id job_status s).2 = trace s ++ pre ++ evs
    ∧ forallb is_quiet pre = true
    ∧ visited 0 results evs out.
Proof.
  destruct job_status as [| b | z | f | str | l | st];
    try (rewrite after_status_not_object by discriminate;
         eexists [_], [], [], _; split; [reflexivity |];
         split; [reflexivity | constructor]).
  rewrite after_status_object. cbv zeta.
  set (stage := default VNone (Py.lookup "job_stage" st)).
  set (job_result := default VNone (Py.lookup "job_result" st)).
  set (pre := EPrint [Dumps (VDict st)]
              :: (if still_processing stage then retry_hint job_id else [])).
  assert (Hpre : forallb is_quiet pre = true) by apply quiet_status_lines.
  destruct (Py.truthy job_result).
  - destruct (Py.iter job_result) as [results | e].
    + destruct (download_all_visited w results 0 (after s pre (files s)))
        as (evs & Ht & Hv).
      eexists pre, results, evs, _. rewrite Ht. simpl.
      rewrite <- app_assoc. split; [reflexivity |].
      split; [exact Hpre | exact Hv].
    + exists pre, [], [], (Ok tt). simpl. rewrite app_nil_r.
      split; [reflexivity |]. split; [exact Hpre | constructor].
  - exists pre, [], [], (Ok tt). simpl. rewrite app_nil_r.
    split; [reflexivity |]. split; [exact Hpre | constructor].
Qed.

Lemma after_submit_downloads w response s :
  ∃ pre results evs out,
    trace (after_submit w response s).2 = trace s ++ pre ++ evs
    ∧ forallb is_quiet pre = true
    ∧ visited 0 results evs out.
Proof.
  destruct response as [| b | z | f | str | l | resp];
    try (rewrite after_submit_not_object by discriminate;
         eexists [_], [], [], _; split; [reflexivity |];
         split; [reflexivity | constructor]).
  destruct (Py.truthy (default VNone (Py.lookup "job_id" resp))) eqn:Htruthy.
  - destruct (Py.lookup "job_id" resp) as [job_id |] eqn:Hid;
      [| discriminate]. simpl in Htruthy.
    destruct (files s !! "outputs") as [data |] eqn:Hfile.
    { rewrite (after_submit_blocked w resp job_id s data Hid Htruthy Hfile).
      eexists _, [], [], (Ok tt). simpl snd. unfold after. cbn [trace].
      rewrite app_nil_r. split; [reflexivity |].
      split; [reflexivity | constructor]. }
    rewrite (after_submit_job w resp job_id s Hid Htruthy Hfile). cbv zeta.
    set (s1 := before_query s (VDict resp) job_id).
    set (lead := [EPrint [Dumps (VDict resp)]] ++ job_lines job_id
                 ++ [EMakedirs "outputs" true; status_query job_id]).
    assert (Hlead : trace (log (status_query job_id) s1) = trace s ++ lead).
    { unfold s1, before_query, log, lead, job_lines. cbn [trace].
      rewrite <- !app_assoc. reflexivity. }
    assert (Hstop : ∀ e : exn,
      ∃ pre results evs out,
        trace (Raise e : result unit, log (status_query job_id) s1).2
        = trace s ++ pre ++ evs
        ∧ forallb is_quiet pre = true ∧ visited 0 results evs out).
    { intros e. exists lead, [], [], (Ok tt). simpl snd.
      rewrite Hlead, app_nil_r. split; [reflexivity |].
      split; [reflexivity | constructor]. }
    destruct (requests_get w (trace s1) _ _) as [r | e]; [| apply Hstop].
    destruct (json r) as [job_status | e]; [| apply Hstop].
    destruct (after_status_downloads w job_id job_status
                (log (status_query job_id) s1))
      as (pre & results & evs & out & Ht & Hq & Hv).
    exists (lead ++ pre), results, evs, out. rewrite Ht, Hlead.
    rewrite forallb_app, Hq, <- !app_assoc.
    split; [reflexivity |]. split; [reflexivity | exact Hv].
  - rewrite after_submit_no_job by assumption.
    eexists [_], [], [], _. split; [reflexivity |].
    split; [reflexivity | constructor].
Qed.

Lemma main_downloads w s :
  ∃ pre results evs out,
    emitted (main w) s = pre ++ evs
    ∧ forallb is_quiet pre = true
    ∧ visited 0 results evs out.
Proof.
  assert (H : ∃ pre results evs out,
            trace (main w s).2 = trace s ++ pre ++ evs
            ∧ forallb is_quiet pre = true ∧ visited 0 results evs out).
  { rewrite main_start.
    assert (Hstop : ∀ e : exn,
      ∃ pre results evs out,
        trace (Raise e : result unit,
               log submission (log announcement s)).2
        = trace s ++ pre ++ evs
        ∧ forallb is_quiet pre = true ∧ visited 0 results evs out).
    { intros e. exists [announcement; submission], [], [], (Ok tt).
      simpl. rewrite <- app_assoc.
      split; [reflexivity |]. split; [reflexivity | constructor]. }
    destruct (submit_answer w s) as [r | e]; [| apply Hstop].
    destruct (json r) as [response | e]; [| apply Hstop].
    destruct (after_submit_downloads w response
                (log submission (log announcement s)))
      as (pre & results & evs & out & Ht & Hq & Hv).
    exists ([announcement; submission] ++ pre), results, evs, out.
    rewrite Ht. simpl. rewrite <- !app_assoc. simpl.
    split; [reflexivity |]. split; [exact Hq | exact Hv]. }
  destruct H as (pre & results & evs & out & Ht & Hq & Hv).
  exists pre, results, evs, out.
  split; [apply emitted_extends; exact Ht | auto].
Qed.

(** Every run of [main] calls [makedirs] at most once, and leaves the
    directories as they were or with [outputs] added. *)
Lemma main_dirs w s :
  (count is_makedirs (emitted (main w) s) <= 1)%nat
  ∧ (dirs (main w s).2 = dirs s
     ∨ dirs (main w s).2 = {[ "outputs" ]} ∪ dirs s).
Proof.
  set (s0 := log submission (log announcement s)).
  assert (Hs0 : ∀ evs,
    trace s0 ++ evs = trace s ++ [announcement; submission] ++ evs).
  { intros evs. unfold s0, log. cbn [trace]. rewrite <- !app_assoc.
    reflexivity. }
  assert (Hstop : ∀ e : exn, main w s = (Raise e, s0) ->
    (count is_makedirs (emitted (main w) s) <= 1)%nat
    ∧ (dirs (main w s).2 = dirs s
       ∨ dirs (main w s).2 = {[ "outputs" ]} ∪ dirs s)).
  { intros e He. rewrite (emitted_extends _ s [announcement; submission]).
    - rewrite He. simpl. auto.
    - rewrite He. simpl snd. rewrite <- (app_nil_r (trace s0)), Hs0.
      reflexivity. }
  pose proof (main_start w s) as Hmain. fold s0 in Hmain.
  destruct (submit_answer w s) as [r | e]; [| eapply Hstop; eauto].
  destruct (json r) as [response | e]; [| eapply Hstop; eauto].
  assert (Hplain : after_submit w response s0
                   = ((after_submit w response s0).1,
                      log (EPrint [Dumps response]) s0) ->
    (count is_makedirs (emitted (main w) s) <= 1)%nat
    ∧ (dirs (main w s).2 = dirs s
       ∨ dirs (main w s).2 = {[ "outputs" ]} ∪ dirs s)).
  { intros He.
    rewrite (emitted_extends _ s [announcement; submission;
                                  EPrint [Dumps response]]).
    - rewrite Hmain, He. simpl. auto.
    - rewrite Hmain, He. simpl snd. rewrite trace_log, Hs0. reflexivity. }
  destruct response as [| b | z | f | str | l | resp];
    try (apply Hplain; rewrite after_submit_not_object by discriminate;
         reflexivity).
  destruct (Py.truthy (default VNone (Py.lookup "job_id" resp))) eqn:Htruthy.
  - destruct (Py.lookup "job_id" resp) as [job_id |] eqn:Hid;
      [| discriminate]. simpl in Htruthy.
    destruct (files s0 !! "outputs") as [data |] eqn:Hfile.
    + rewrite (after_submit_blocked w resp job_id s0 data Hid Htruthy Hfile)
        in Hmain.
      rewrite (emitted_extends _ s
                 ([announcement; submission; EPrint [Dumps (VDict resp)]]
                  ++ job_lines job_id ++ [EMakedirs "outputs" true])).
      * rewrite Hmain. simpl. auto.
      * rewrite Hmain. unfold after, s0, job_lines. unfold log.
        cbn [snd trace]. rewrite <- !app_assoc. reflexivity.
    + destruct (after_submit_job_trace w resp job_id s0 Hid Htruthy Hfile)
        as (ext & Ht & Hl & Hd).
      rewrite Hmain, Hd. split; [| auto].
      rewrite Hs0 in Ht. rewrite <- Hmain in Ht.
      rewrite (emitted_extends _ _ _ Ht). rewrite !count_app.
      rewrite (count_local _ ext local_not_makedirs Hl). simpl. lia.
  - apply Hplain. rewrite after_submit_no_job by assumption.
    reflexivity.
Qed.

(** ** Where the exceptions of a run come from *)






Lemma main_to_query w s resp job_id :
  answers (submit_answer w s) (VDict resp) ->
  Py.lookup "job_id" resp = Some job_id ->
  Py.truthy job_id = true ->
  files s !! "outputs" = None ->
  let s1 := before_query (log submission (log announcement s))
              (VDict resp) job_id in
  main w s =
  match status_answer w s (VDict resp) job_id with
  | Ok r =>
      match json r with
      | Ok job_status =>
          after_status w job_id job_status (log (status_query job_id) s1)
      | Raise e => (Raise e, log (status_query job_id) s1)
      end
  | Raise e => (Raise e, log (status_query job_id) s1)
  end.
Proof.
  intros (r & Hr & Hj) Hid Htruthy Hfree s1.
  rewrite main_start, Hr, Hj.
  rewrite (after_submit_job w resp job_id
             (log submission (log announcement s)) Hid Htruthy Hfree).
  cbv zeta.
  fold s1. unfold s1 at 1. rewrite status_answer_trace. reflexivity.
Qed.

(** The state in which [main] stands once the status query is out. *)
Lemma queried_state s resp job_id :
  log (status_query job_id)
    (before_query (log submission (log announcement s)) (VDict resp) job_id)
  = {| trace := trace s
                ++ [announcement; submission; EPrint [Dumps (VDict resp)]]
                ++ job_lines job_id
                ++ [EMakedirs "outputs" true; status_query job_id];
       files := files s;
       dirs := {[ "outputs" ]} ∪ dirs s |}.
Proof.
  unfold before_query, log, job_lines. cbn [trace files dirs].
  rewrite <- !app_assoc. reflexivity.
Qed.

(** ** How a run of [main] ends early *)

(** X1: when the submit request fails (the transport raises, or the answer is
    not JSON), [main] ends with that exception right after the request: the
    response is not printed, no status query is sent, no directory is made
    and no file is touched. *)
Theorem main_stops_when_submit_fails (w : World) (s : State) (e : exn) :
  fails_with e (submit_answer w s) ->
  main w s = (Raise e, after s [announcement; submission] (files s)).
Proof.
  intros Hfail. rewrite main_start.
  assert (Hs : log submission (log announcement s)
               = after s [announcement; submission] (files s)).
  { unfold after, log. cbn [trace files dirs]. rewrite <- app_assoc.
    reflexivity. }
  rewrite Hs.
  destruct Hfail as [-> | (r & -> & ->)]; reflexivity.
Qed.

Lemma main_stops_when_submit_fails_witness :
  main Sample.garbled initial
  = (Raise JSONDecodeError,
     after initial [announcement; submission] (files initial)).
Proof.
  apply (main_stops_when_submit_fails Sample.garbled initial JSONDecodeError).
  right. eexists. split; reflexivity.
Defined.

(** X2: when the submit request is answered with JSON that is not an object
    (a list, as a synchronous server sends, a string, a number, null),
    [main] prints the answer and ends with [AttributeError]; it sends no
    status query and makes no directory. *)
Theorem main_rejects_non_object_response
    (w : World) (s : State) (response : value) :
  answers (submit_answer w s) response ->
  (∀ items, response ≠ VDict items) ->
  main w s
  = (Raise AttributeError,
     after s [announcement; submission; EPrint [Dumps response]] (files s)).
Proof.
  intros (r & Hr & Hj) Hshape.
  rewrite main_start, Hr, Hj, after_submit_not_object by assumption.
  unfold after, log. cbn [trace files dirs]. rewrite <- !app_assoc.
  reflexivity.
Qed.

Lemma main_rejects_non_object_response_witness :
  main (Sample.server (VList [Sample.one_result]) Sample.finished
          (Sample.reply 200 Sample.png (Raise JSONDecodeError))) initial
  = (Raise AttributeError,
     after initial
       [announcement; submission; EPrint [Dumps (VList [Sample.one_result])]]
       (files initial)).
Proof.
  apply (main_rejects_non_object_response
           (Sample.server (VList [Sample.one_result]) Sample.finished
              (Sample.reply 200 Sample.png (Raise JSONDecodeError)))
           initial (VList [Sample.one_result])).
  - eexists. split; reflexivity.
  - discriminate.
Defined.

(** X3: when no regular file named [outputs] is in the way and the status
    query fails, [main] ends with that exception right after the query: the
    [outputs] directory has been made by then, nothing is printed after the
    query, no image is fetched and no file written. *)
Theorem main_stops_when_query_fails
    (w : World) (s : State) (resp : list (string * value)) (job_id : value)
    (e : exn) :
  answers (submit_answer w s) (VDict resp) ->
  Py.lookup "job_id" resp = Some job_id ->
  Py.truthy job_id = true ->
  files s !! "outputs" = None ->
  fails_with e (status_answer w s (VDict resp) job_id) ->
  main w s
  = (Raise e,
     {| trace := trace s
                 ++ [announcement; submission; EPrint [Dumps (VDict resp)]]
                 ++ job_lines job_id
                 ++ [EMakedirs "outputs" true; status_query job_id];
        files := files s;
        dirs := {[ "outputs" ]} ∪ dirs s |}).
Proof.
  intros Hsubmit Hid Htruthy Hfree Hfail.
  rewrite (main_to_query w s resp job_id Hsubmit Hid Htruthy Hfree). cbv zeta.
  rewrite queried_state.
  destruct Hfail as [-> | (r & -> & ->)]; reflexivity.
Qed.

Lemma main_stops_when_query_fails_witness :
  main Faulty.vanishing initial
  = (Raise (RequestException "refused"),
     {| trace := trace initial
                 ++ [announcement; submission;
                     EPrint [Dumps (Sample.accepted (VStr "j1"))]]
                 ++ job_lines (VStr "j1")
                 ++ [EMakedirs "outputs" true; status_query (VStr "j1")];
        files := files initial;
        dirs := {[ "outputs" ]} ∪ dirs initial |}).
Proof.
  apply (main_stops_when_query_fails Faulty.vanishing initial
           [("job_id", VStr "j1"); ("job_stage", VStr "PENDING")]
           (VStr "j1") (RequestException "refused")).
  - eexists. split; reflexivity.
  - reflexivity.
  - reflexivity.
  - reflexivity.
  - left. reflexivity.
Defined.

(** X4: when no regular file named [outputs] is in the way and the status
    query is answered with JSON that is not an object, [main] prints the
    answer and ends with [AttributeError]; no image is fetched and no file
    written. *)
Theorem main_rejects_non_object_status
    (w : World) (s : State) (resp : list (string * value))
    (job_id job_status : value) :
  answers (submit_answer w s) (VDict resp) ->
  Py.lookup "job_id" resp = Some job_id ->
  Py.truthy job_id = true ->
  files s !! "outputs" = None ->
  answers (status_answer w s (VDict resp) job_id) job_status ->
  (∀ items, job_status ≠ VDict items) ->
  main w s
  = (Raise AttributeError,
     {| trace := trace s
                 ++ [announcement; submission; EPrint [Dumps (VDict resp)]]
                 ++ job_lines job_id
                 ++ [EMakedirs "outputs" true; status_query job_id;
                     EPrint [Dumps job_status]];
        files := files s;
        dirs := {[ "outputs" ]} ∪ dirs s |}).
Proof.
  intros Hsubmit Hid Htruthy Hfree (r & Hr & Hj) Hshape.
  rewrite (main_to_query w s resp job_id Hsubmit Hid Htruthy Hfree). cbv zeta.
  rewrite Hr, Hj, queried_state, after_status_not_object by assumption.
  unfold log. cbn [trace files dirs]. rewrite <- !app_assoc. reflexivity.
Qed.

Lemma main_rejects_non_object_status_witness :
  main (Sample.server (Sample.accepted (VStr "j1")) (VList [])
          (Sample.reply 200 Sample.png (Raise JSONDecodeError))) initial
  = (Raise AttributeError,
     {| trace := trace initial
                 ++ [announcement; submission;
                     EPrint [Dumps (Sample.accepted (VStr "j1"))]]
                 ++ job_lines (VStr "j1")
                 ++ [EMakedirs "outputs" true; status_query (VStr "j1");
                     EPrint [Dumps (VList [])]];
        files := files initial;
        dirs := {[ "outputs" ]} ∪ dirs initial |}).
Proof.
  apply (main_rejects_non_object_status
           (Sample.server (Sample.accepted (VStr "j1")) (VList [])
              (Sample.reply 200 Sample.png (Raise JSONDecodeError)))
           initial
           [("job_id", VStr "j1"); ("job_stage", VStr "PENDING")]
           (VStr "j1") (VList [])).
  - eexists. split; reflexivity.
  - reflexivity.
  - reflexivity.
  - reflexivity.
  - eexists. split; reflexivity.
  - discriminate.
Defined.

(** X5: when no regular file named [outputs] is in the way and [job_result]
    is truthy but not a list, the run ends with an
    exception before any image is fetched or file written: [TypeError] for a
    number or [true] (not iterable), [AttributeError] for a non-empty string
    or object (its first character or key has no [get]). *)
Theorem main_rejects_non_list_results
    (w : World) (s : State) (resp st : list (string * value))
    (job_id job_result : value) :
  answers (submit_answer w s) (VDict resp) ->
  Py.lookup "job_id" resp = Some job_id ->
  Py.truthy job_id = true ->
  files s !! "outputs" = None ->
  answers (status_answer w s (VDict resp) job_id) (VDict st) ->
  Py.lookup "job_result" st = Some job_result ->
  Py.truthy job_result = true ->
  (∀ l, job_result ≠ VList l) ->
  (main w s).1
  = Raise (match job_result with
           | VStr _ | VDict _ => AttributeError
           | _ => TypeError
           end)
  ∧ fetched (emitted (main w) s) = []
  ∧ written (emitted (main w) s) = [].
Proof.
  intros Hsubmit Hid Htruthy Hfree (r & Hr & Hj) Hres Hres_truthy Hshape.
  pose proof (main_to_query w s resp job_id Hsubmit Hid Htruthy Hfree)
    as Hmain.
  cbv zeta in Hmain. rewrite Hr, Hj, queried_state in Hmain.
  rewrite after_status_object in Hmain. cbv zeta in Hmain.
  rewrite Hres in Hmain. simpl default in Hmain.
  rewrite Hres_truthy in Hmain.
  set (stage := default VNone (Py.lookup "job_stage" st)) in *.
  set (s2 := after _ _ _) in Hmain.
  assert (Hend : main w s
                 = (Raise (match job_result with
                           | VStr _ | VDict _ => AttributeError
                           | _ => TypeError
                           end), s2)).
  { rewrite Hmain.
    destruct job_result as [| b | z | f | str | l | items];
      try reflexivity; try discriminate.
    - destruct str; [discriminate | reflexivity].
    - now destruct (Hshape l).
    - destruct items as [| [k v] items]; [discriminate | reflexivity]. }
  assert (Ht : trace (main w s).2
               = trace s
                 ++ ([announcement; submission; EPrint [Dumps (VDict resp)]]
                     ++ job_lines job_id
                     ++ [EMakedirs "outputs" true; status_query job_id]
                     ++ EPrint [Dumps (VDict st)]
                        :: (if still_processing stage
                            then retry_hint job_id else []))).
  { rewrite Hend. unfold s2, after. cbn [snd trace].
    rewrite <- !app_assoc. reflexivity. }
  rewrite (emitted_extends _ _ _ Ht), Hend.
  split; [reflexivity |].
  destruct (still_processing stage); split; reflexivity.
Qed.

Lemma main_rejects_non_list_results_witness :
  (main (Sample.server (Sample.accepted (VStr "j1"))
           (VDict [("job_stage", VStr "SUCCESS"); ("job_result", VInt 1)])
           (Sample.reply 200 Sample.png (Raise JSONDecodeError))) initial).1
  = Raise TypeError.
Proof.
  apply (main_rejects_non_list_results
           (Sample.server (Sample.accepted (VStr "j1"))
              (VDict [("job_stage", VStr "SUCCESS"); ("job_result", VInt 1)])
              (Sample.reply 200 Sample.png (Raise JSONDecodeError)))
           initial
           [("job_id", VStr "j1"); ("job_stage", VStr "PENDING")]
           [("job_stage", VStr "SUCCESS"); ("job_result", VInt 1)]
           (VStr "j1") (VInt 1)).
  - eexists. split; reflexivity.
  - reflexivity.
  - reflexivity.
  - reflexivity.
  - eexists. split; reflexivity.
  - reflexivity.
  - reflexivity.
  - discriminate.
Defined.

(** ** How the loop ends early *)

Lemma download_all_stops w before result rest s0 s e s' :
  download_all w 0 before s0 = (Ok tt, s) ->
  download w (length before) result s = (Raise e, s') ->
  download_all w 0 (before ++ result :: rest) s0 = (Raise e, s').
Proof.
  intros Hbefore Hstep.
  rewrite (download_all_at w before result rest s0 s Hbefore).
  unfold bind. rewrite Hstep. reflexivity.
Qed.

(** X6: when the request for an image fails in the transport, the loop ends
    with that exception: the URL and seed of that result have been printed,
    nothing is written for it, and the results after it are not looked
    at. *)
Theorem download_all_stops_on_failed_request
    (w : World) (before rest : list value) (items : list (string * value))
    (url : value) (e : exn) (s0 s : State) :
  download_all w 0 before s0 = (Ok tt, s) ->
  Py.lookup "url" items = Some url ->
  Py.truthy url = true ->
  requests_get w (trace s ++ announced items url) url [] = Raise e ->
  download_all w 0 (before ++ VDict items :: rest) s0
  = (Raise e, after s (shown items url) (files s)).
Proof.
  intros Hbefore Hurl Htruthy Hget.
  apply (download_all_stops w before (VDict items) rest s0 s e _ Hbefore).
  rewrite (download_with_url w _ items url s Hurl Htruthy), Hget.
  reflexivity.
Qed.

Lemma download_all_stops_on_failed_request_witness :
  download_all Sample.unreachable 0
    ([] ++ Sample.one_result :: [Sample.one_result]) initial
  = (Raise (RequestException "refused"),
     after initial
       (shown [("url", VStr "http://127.0.0.1:8888/files/a.png");
               ("seed", VInt 7)]
          (VStr "http://127.0.0.1:8888/files/a.png"))
       (files initial)).
Proof.
  apply (download_all_stops_on_failed_request Sample.unreachable []
           [Sample.one_result]
           [("url", VStr "http://127.0.0.1:8888/files/a.png");
            ("seed", VInt 7)]
           (VStr "http://127.0.0.1:8888/files/a.png")
           (RequestException "refused") initial initial); reflexivity.
Defined.

(** X7: an element of [job_result] that is not an object ends the loop with
    [AttributeError]: nothing is printed, fetched or written for it, and the
    results after it are not looked at. *)
Theorem download_all_stops_on_non_object
    (w : World) (before rest : list value) (result : value) (s0 s : State) :
  download_all w 0 before s0 = (Ok tt, s) ->
  (∀ items, result ≠ VDict items) ->
  download_all w 0 (before ++ result :: rest) s0 = (Raise AttributeError, s).
Proof.
  intros Hbefore Hshape.
  apply (download_all_stops w before result rest s0 s _ _ Hbefore).
  destruct result; try reflexivity. now destruct (Hshape items).
Qed.

Lemma download_all_stops_on_non_object_witness :
  download_all Sample.unreachable 0
    ([VDict [("seed", VInt 7)]]
     ++ VStr "http://127.0.0.1:8888/files/a.png" :: [Sample.one_result])
    initial
  = (Raise AttributeError, initial).
Proof.
  apply (download_all_stops_on_non_object Sample.unreachable
           [VDict [("seed", VInt 7)]] [Sample.one_result]
           (VStr "http://127.0.0.1:8888/files/a.png") initial initial).
  - reflexivity.
  - discriminate.
Defined.

(** ** What the loop requests and writes *)

(** X8: the loop requests the images in the order of [job_result]: the URLs
    it fetches are an initial part of the truthy [url]s of the results, each
    once; when the loop ends without an exception, they are all of them. *)
Theorem download_all_fetches_in_order
    (w : World) (idx : nat) (results : list value) (s : State) :
  fetched (emitted (download_all w idx results) s)
    `prefix_of` image_urls results
  ∧ ((download_all w idx results s).1 = Ok tt ->
     fetched (emitted (download_all w idx results) s) = image_urls results).
Proof.
  destruct (download_all_visited w results idx s) as (evs & Ht & Hv).
  rewrite (emitted_extends _ _ _ Ht).
  exact (visited_fetched _ _ _ _ Hv).
Qed.

Lemma download_all_fetches_in_order_witness :
  fetched (emitted
             (download_all
                (Sample.server Sample.finished Sample.finished
                   (Sample.reply 404 [] (Raise JSONDecodeError)))
                0 [Sample.one_result; VDict [("url", VStr "")];
                   VDict [("url", VStr "http://127.0.0.1:8888/files/b.png")]])
             initial)
  = [VStr "http://127.0.0.1:8888/files/a.png";
     VStr "http://127.0.0.1:8888/files/b.png"].
Proof.
  apply (proj2 (download_all_fetches_in_order
                  (Sample.server Sample.finished Sample.finished
                     (Sample.reply 404 [] (Raise JSONDecodeError)))
                  0 [Sample.one_result; VDict [("url", VStr "")];
                     VDict [("url",
                             VStr "http://127.0.0.1:8888/files/b.png")]]
                  initial)).
  reflexivity.
Defined.

(** X9: the loop never writes more files than it has fetched images, and
    never fetches more images than there are results. *)
Theorem download_all_counts
    (w : World) (idx : nat) (results : list value) (s : State) :
  length (written (emitted (download_all w idx results) s))
  <= length (fetched (emitted (download_all w idx results) s))
  ∧ length (fetched (emitted (download_all w idx results) s))
    <= length results.
Proof.
  destruct (download_all_visited w results idx s) as (evs & Ht & Hv).
  rewrite (emitted_extends _ _ _ Ht).
  exact (visited_counts _ _ _ _ Hv).
Qed.

(** X10: file names tell results apart: results at different positions get
    different names, whatever the times at which they are saved. *)
Theorem image_paths_differ (ts1 ts2 : string) (i j : nat) :
  i ≠ j -> image_path ts1 i ≠ image_path ts2 j.
Proof. intros Hne Heq. apply Hne. eapply image_path_index; eassumption. Qed.

Lemma image_paths_differ_witness :
  image_path "20250309_120007" 1 ≠ image_path "20250309_120007" 11.
Proof.
  apply (image_paths_differ "20250309_120007" "20250309_120007" 1 11).
  discriminate.
Defined.

(** ** Files and directories over every run of [main] *)

Lemma image_path_prefix ts i :
  String.prefix "outputs/image_" (image_path ts i) = true.
Proof. unfold image_path. destruct ts; reflexivity. Qed.

(** X11: whatever the server answers, every file [main] writes is named
    [outputs/image_<timestamp>_<index>.png]. *)
Theorem main_writes_only_image_files (w : World) (s : State) :
  Forall (fun pd => (∃ ts i, pd.1 = image_path ts i)
                    ∧ String.prefix "outputs/image_" pd.1 = true)
    (written (emitted (main w) s)).
Proof.
  destruct (main_downloads w s) as (pre & results & evs & out & -> & Hq & Hv).
  rewrite written_app, (written_quiet pre Hq). simpl.
  eapply Forall_impl; [exact (visited_written _ _ _ _ Hv) |].
  intros pd (ts & i & Hp & _). split; [eauto |]. rewrite Hp.
  apply image_path_prefix.
Qed.

(** X12: whatever the server answers, no two writes of one run of [main] go
    to the same path: no image of a run overwrites another. *)
Theorem main_never_overwrites (w : World) (s : State) :
  NoDup (written (emitted (main w) s)).*1.
Proof.
  destruct (main_downloads w s) as (pre & results & evs & out & -> & Hq & Hv).
  rewrite written_app, (written_quiet pre Hq). simpl.
  exact (visited_written_nodup _ _ _ _ Hv).
Qed.

Lemma main_files w s :
  files (main w s).2 = apply_writes (written (emitted (main w) s)) (files s).
Proof.
  destruct (tracked_main w s) as (ext & Ht & Hf).
  rewrite (emitted_extends _ _ _ Ht). exact Hf.
Qed.

(** X13: at the end of every run of [main], each file the run wrote holds the
    content that was written to it. *)
Theorem main_saved_images_on_disk
    (w : World) (s : State) (path : string) (data : list Byte.byte) :
  (path, data) ∈ written (emitted (main w) s) ->
  files (main w s).2 !! path = Some data.
Proof.
  intros Hin. rewrite main_files.
  apply apply_writes_lookup; [| exact Hin].
  destruct (main_downloads w s) as (pre & results & evs & out & -> & Hq & Hv).
  rewrite written_app, (written_quiet pre Hq). simpl.
  exact (visited_written_nodup _ _ _ _ Hv).
Qed.

Lemma main_saved_images_on_disk_witness :
  files (main (Sample.server Sample.finished Sample.finished
                 (Sample.reply 200 Sample.png (Raise JSONDecodeError)))
           initial).2
    !! "outputs/image_20250309_120007_0.png"
  = Some Sample.png.
Proof.
  apply (main_saved_images_on_disk
           (Sample.server Sample.finished Sample.finished
              (Sample.reply 200 Sample.png (Raise JSONDecodeError)))
           initial "outputs/image_20250309_120007_0.png" Sample.png).
  apply list_elem_of_here.
Defined.

(** X14: a run of [main] changes no file other than the images it saves: a
    path that does not begin with [outputs/image_] has at the end the content
    it had at the start (or is still absent). *)
Theorem main_leaves_other_files (w : World) (s : State) (path : string) :
  String.prefix "outputs/image_" path = false ->
  files (main w s).2 !! path = files s !! path.
Proof.
  intros Hpath. rewrite main_files. apply apply_writes_other.
  destruct (main_downloads w s) as (pre & results & evs & out & -> & Hq & Hv).
  rewrite written_app, (written_quiet pre Hq). simpl.
  eapply Forall_impl; [exact (visited_written _ _ _ _ Hv) |].
  intros pd (ts & i & Hp & _) Heq. rewrite Hp in Heq. subst path.
  rewrite image_path_prefix in Hpath. discriminate Hpath.
Qed.

Lemma main_leaves_other_files_witness :
  files (main (Sample.server Sample.finished Sample.finished
                 (Sample.reply 200 Sample.png (Raise JSONDecodeError)))
           initial).2
    !! "outputs/notes.txt"
  = files initial !! "outputs/notes.txt".
Proof.
  apply (main_leaves_other_files
           (Sample.server Sample.finished Sample.finished
              (Sample.reply 200 Sample.png (Raise JSONDecodeError)))
           initial "outputs/notes.txt").
  reflexivity.
Defined.

(** X15: whatever the server answers, a run of [main] calls [makedirs] at
    most once, and the only directory it can add is [outputs]. *)
Theorem main_creates_only_outputs (w : World) (s : State) :
  (count is_makedirs (emitted (main w) s) <= 1)%nat
  ∧ (dirs (main w s).2 = dirs s
     ∨ dirs (main w s).2 = {[ "outputs" ]} ∪ dirs s).
Proof.
  exact (main_dirs w s).
Qed.



(** ** Defaults of [text_to_image] *)

(** X17: [text_to_image] called without [negative_prompt] sends the empty
    string for it; passing [None] for [style_selections] is the same as
    leaving it out; an empty style list is sent as it is, not replaced by the
    default. *)
Theorem text_to_image_defaults
    (w : World) (prompt : string) (negative_prompt : option string)
    (style_selections : option value) (async_process : option bool)
    (s : State) :
  (∃ body,
     emitted (text_to_image w prompt None style_selections async_process) s
     = [EPost "http://127.0.0.1:8888/v1/generation/text-to-image" body
          [("Content-Type", "application/json")]]
     ∧ field body "negative_prompt" = Some (VStr ""))
  ∧ text_to_image w prompt negative_prompt (Some VNone) async_process s
    = text_to_image w prompt negative_prompt None async_process s
  ∧ (∃ body,
       emitted (text_to_image w prompt negative_prompt (Some (VList []))
                  async_process) s
       = [EPost "http://127.0.0.1:8888/v1/generation/text-to-image" body
            [("Content-Type", "application/json")]]
       ∧ field body "style_selections" = Some (VList [])).
Proof.
  split; [| split; [reflexivity |]].
  - exists (params prompt ""
              match style_selections with
              | None | Some VNone => VList [VStr "Fooocus V2"]
              | Some v => v
              end (default true async_process)).
    split; [| reflexivity].
    apply emitted_extends. unfold text_to_image, bind, post, lift. simpl.
    destruct (requests_post _ _ _ _ _); reflexivity.
  - exists (params prompt (default "" negative_prompt) (VList [])
              (default true async_process)).
    split; [| reflexivity].
    apply emitted_extends. unfold text_to_image, bind, post, lift. simpl.
    destruct (requests_post _ _ _ _ _); reflexivity.
Qed.
